(** * Request-state orchestration (createRequestState)

    A shallow embedding of [src/functions/createRequestState.ts]: the function
    shared by useRequest, useWatcher and useFetcher.  It computes the initial
    loading flag, (re)initialises the hook instance, registers the request
    effect with the host states hook and returns the state handles together
    with the operations [onSuccess], [onError], [onComplete], [update],
    [abort] and [send].

    JavaScript objects that are shared and mutated (the hook instance) live in
    a heap and are addressed by location; calls into the host states hook
    thread the host's own state; promises are cells of a promise table. *)

From stdpp Require Import gmap strings list fin_maps.
From Stdlib Require Import ZArith.

(** ** JavaScript values *)

(** The values that flow through the orchestrator.  Numbers are the integral
    ones (delays in milliseconds, indices, counters). *)
#[warnings="-register-all"]
Inductive JsVal : Type :=
| VUndef
| VNull
| VBool (b : bool)
| VNum (z : Z)
| VStr (s : string)
| VObj (fields : list (string * JsVal)).

Definition falseValue : JsVal := VBool false.
Definition trueValue : JsVal := VBool true.
Definition undefinedValue : JsVal := VUndef.

(** ToBoolean: what [if (v)], [!v] and [!!v] test. *)
Definition truthy (v : JsVal) : bool :=
  match v with
  | VUndef | VNull => false
  | VBool b => b
  | VNum z => negb (z =? 0)%Z
  | VStr s => negb (String.eqb s EmptyString)
  | VObj _ => true
  end.

Definition nullish (v : JsVal) : bool :=
  match v with
  | VUndef | VNull => true
  | _ => false
  end.



(** [a ?? d] *)
Definition coalesce (a d : JsVal) : JsVal := if nullish a then d else a.

(** A parameter default [p = d] applies to [undefined] only. *)
Definition paramDefault (a d : JsVal) : JsVal :=
  match a with
  | VUndef => d
  | _ => a
  end.

(** Modelled from the spec: [isNumber] of utils/helper, the test
    [typeof arg === 'number']. *)
Definition isNumber (v : JsVal) : bool :=
  match v with
  | VNum _ => true
  | _ => false
  end.

(** A configuration entry that is either a plain value or a function
    producing it, as [force] is. *)
Inductive Sloughable : Type :=
| Plain (v : JsVal)
| Func (f : list JsVal -> JsVal).

(** [cfg ?? d] on such an entry: a function is never nullish. *)
Definition coalesceCfg (cfg : Sloughable) (d : JsVal) : Sloughable :=
  match cfg with
  | Plain v => Plain (coalesce v d)
  | Func _ => cfg
  end.

(** Modelled from the spec: [sloughConfig] lives in utils/helper.  It
    resolves an entry given as value or as function: a function is called
    (here with no arguments, as createRequestState calls it), a value is
    returned as it is. *)
Definition sloughConfig (cfg : Sloughable) : JsVal :=
  match cfg with
  | Plain v => v
  | Func f => f []
  end.

(** [hookType: 1 | 2 | 3] *)
Inductive HookType : Type := HOOK_REQUEST | HOOK_WATCHER | HOOK_FETCHER.

(** [WatcherHookConfig['debounce']]: one delay, or one per watched state. *)
Inductive DebounceDelay : Type :=
| DelayNumber (d : Z)
| DelayArray (ds : list Z).

Definition isArray (d : DebounceDelay) : bool :=
  match d with
  | DelayArray _ => true
  | DelayNumber _ => false
  end.

(** [arr[i]]: the element when [i] is an index of [arr], [undefined]
    otherwise. *)
Definition jsIndex (ds : list Z) (i : Z) : JsVal :=
  if (i <? 0)%Z then VUndef
  else match ds !! Z.to_nat i with
       | Some d => VNum d
       | None => VUndef
       end.

(** A promise is identified with the outcome it settles to. *)
Inductive Outcome : Type :=
| Fulfilled (v : JsVal)
| Rejected (e : JsVal).

(** Locations of heap objects, and identities of caller-supplied callbacks. *)
Abbreviation loc := nat (only parsing).
Abbreviation Callback := nat (only parsing).

(** What the [ar] slot of a hook instance holds: the no-op, or the abort
    capability of the transport call with the given identity. *)
Inductive AbortFn : Type :=
| AbortNoop
| AbortTransport (rid : nat).

(** Results of code that may throw. *)
Inductive Result (A : Type) : Type :=
| Ok (a : A)
| Throw (msg : string).
Arguments Ok {A} a.
Arguments Throw {A} msg.

(** Modelled from the spec: [noop] of utils/helper, here as a rejection
    handler: it returns [undefined]. *)
Definition noop (_ : JsVal) : JsVal := VUndef.

(** ** Promise table *)

Record PromiseCell : Type := mkCell {
  outcome : Outcome;
  handled : bool   (* a rejection handler has been attached *)
}.

Definition isRejected (o : Outcome) : bool :=
  match o with
  | Rejected _ => true
  | Fulfilled _ => false
  end.

(** The promises the host would report as unhandled rejections. *)
Fixpoint unhandledFrom (n : nat) (ps : list PromiseCell) : list nat :=
  match ps with
  | [] => []
  | p :: ps' =>
      if isRejected (outcome p) && negb (handled p)
      then n :: unhandledFrom (S n) ps'
      else unhandledFrom (S n) ps'
  end.

Definition unhandledRejections (ps : list PromiseCell) : list nat :=
  unhandledFrom 0 ps.

Definition markHandled (p : PromiseCell) : PromiseCell :=
  mkCell (outcome p) true.

(** Modelled from the spec: [promiseCatch(promise, onrejected)] of
    utils/variables is [promise.catch(onrejected)]: the promise gets a
    rejection handler, and a new promise is made that is fulfilled with the
    value of [promise], or with what [onrejected] returns for its error. *)
Definition promiseCatch (p : nat) (onrejected : JsVal -> JsVal)
    (ps : list PromiseCell) : nat * list PromiseCell :=
  match ps !! p with
  | Some cell =>
      let derived :=
        match outcome cell with
        | Fulfilled v => Fulfilled v
        | Rejected e => Fulfilled (onrejected e)
        end in
      (length ps, alter markHandled p ps ++ [mkCell derived false])
  | None => (p, ps)
  end.

(** ** Types supplied by the collaborators *)

(** [State]: the state handles of the host ([create]); [Exported]: their
    exported form ([export]); [HostState]: the host's own state; [Method]:
    request descriptors; [Watched]: watched states; [CacheState]: the state
    of the response cache. *)
Class HostTypes : Type := {
  State : Type;
  Exported : Type;
  HostState : Type;
  Method : Type;
  Watched : Type;
  CacheState : Type
}.

(** ** The orchestrator *)

Section Orchestrator.

Context {tys : HostTypes}.

(** [UseHookConfig], with the two entries createRequestState reads. *)
Record UseHookConfig : Type := mkConfig {
  force : Sloughable;                      (* [Plain VUndef] when not given *)
  managedStates : option (gmap string State)   (* [None] when not given *)
}.

(** [Method | AlovaMethodHandler]: a method instance or a function
    returning one. *)
Inductive MethodHandler : Type :=
| MethodInstance (m : Method)
| MethodFn (f : list JsVal -> Method).

(** Modelled from the spec: [getHandlerMethod] of utils/helper, which
    resolves a descriptor or descriptor-producing function to the
    descriptor (called without arguments here). *)
Definition getHandlerMethod (methodHandler : MethodHandler) : Method :=
  match methodHandler with
  | MethodInstance m => m
  | MethodFn f => f []
  end.

(** The hook instance.  [fs]: front states, [sh] / [eh] / [ch]: success,
    error and complete handlers, [rf] / [sf]: remove-states and save-states
    functions, [ar]: the abort function, [c]: the hook config, [ht]: the
    hook type. *)
Record Hook : Type := mkHook {
  ht : HookType;
  fs : gmap string State;
  sh : list Callback;
  eh : list Callback;
  ch : list Callback;
  rf : list Callback;
  sf : list Callback;
  ar : AbortFn;
  c : UseHookConfig
}.

Definition set_fs (v : gmap string State) (h : Hook) : Hook :=
  mkHook (ht h) v (sh h) (eh h) (ch h) (rf h) (sf h) (ar h) (c h).
Definition set_sh (v : list Callback) (h : Hook) : Hook :=
  mkHook (ht h) (fs h) v (eh h) (ch h) (rf h) (sf h) (ar h) (c h).
Definition set_eh (v : list Callback) (h : Hook) : Hook :=
  mkHook (ht h) (fs h) (sh h) v (ch h) (rf h) (sf h) (ar h) (c h).
Definition set_ch (v : list Callback) (h : Hook) : Hook :=
  mkHook (ht h) (fs h) (sh h) (eh h) v (rf h) (sf h) (ar h) (c h).
Definition set_c (v : UseHookConfig) (h : Hook) : Hook :=
  mkHook (ht h) (fs h) (sh h) (eh h) (ch h) (rf h) (sf h) (ar h) v.

(** Modelled from the spec: [createHook] lives in src/createHook.ts.  It
    makes a new execution context of the given type and config snapshot, with
    no state handles, empty handler and callback lists and an abort function
    that does nothing as long as no request is in flight. *)
Definition createHook (hookType : HookType) (useHookConfig : UseHookConfig)
    : Hook :=
  mkHook hookType ∅ [] [] [] [] [] AbortNoop useHookConfig.

(** The function handed to the host as [handler]: the error-catching call of
    handleRequest, or its debounced version with the delay function. *)
Inductive EffectHandler : Type :=
| WrapEffectRequest (hookInstance : loc) (methodHandler : MethodHandler)
| Debounced (fn : EffectHandler) (delay : JsVal -> JsVal).

(** The closures [removeStates] and [saveStates] run the functions found in
    [rf] and [sf] of the hook instance they close over. *)
Inductive RemoveStates : Type := RunRemoveFns (hookInstance : loc).
Inductive SaveStates : Type := RunSaveFns (hookInstance : loc).

(** The object passed to [effectRequest]. *)
Record EffectParams : Type := mkEffect {
  handler : EffectHandler;
  removeStates : RemoveStates;
  saveStates : SaveStates;
  frontStates : gmap string State;
  watchingStates : option (list Watched);
  immediate : JsVal
}.

(** The states hook of the host.  Its functions act on the host's state;
    they receive the hook instance by reference.  [ref] is optional and
    returns the location that its [current] holds: the one given (the
    default), or the one kept from an earlier call (React's useRef).
    [memorize] (default [_self]) returns a function that behaves as the one
    given, so the operations below are the memorized ones as well.
    [stateExport] and [stateUpdate] are the hook's [export] and [update]. *)
Record StatesHook : Type := mkStatesHook {
  create : JsVal -> loc -> HostState -> State * HostState;
  stateExport : State -> loc -> HostState -> Exported * HostState;
  effectRequest : EffectParams -> loc -> HostState -> HostState;
  stateUpdate :
    gmap string JsVal -> gmap string State -> loc -> HostState -> HostState;
  ref : option (loc -> HostState -> loc * HostState)
}.

(** The alova instance: its [id] and the states hook of its options. *)
Record Alova : Type := mkAlova {
  alovaId : string;
  statesHook : option StatesHook
}.

(** What the collaborators act on: the heap of hook instances, the host's
    state and the response cache. *)
Record World : Type := mkWorld {
  heap : list Hook;
  hostSt : HostState;
  cacheSt : CacheState
}.

(** The whole state: the world, the registrations made with
    [effectRequest] (oldest first) and the promise table. *)
Record Store : Type := mkStore {
  world : World;
  effects : list (EffectParams * loc);
  promises : list PromiseCell
}.

(** Collaborators outside this file: the key generator, the response cache
    lookup, the request attempt itself ([useHookToSendRequest], given by its
    effect on the world and the outcome its promise settles to), what an
    abort capability of the transport does, and the [isSSR] constant. *)
Record Env : Type := mkEnv {
  key : Method -> string;
  getResponseCache : string -> string -> CacheState -> JsVal * CacheState;
  useHookToSendRequest :
    loc -> MethodHandler -> option (list JsVal) -> JsVal -> World ->
    Outcome * World;
  transportAbort : nat -> World -> World;
  isSSR : bool
}.

Definition setHeap (hp : list Hook) (w : World) : World :=
  mkWorld hp (hostSt w) (cacheSt w).
Definition setHost (h : HostState) (w : World) : World :=
  mkWorld (heap w) h (cacheSt w).
Definition setCache (k : CacheState) (w : World) : World :=
  mkWorld (heap w) (hostSt w) k.
Definition setWorld (w : World) (s : Store) : Store :=
  mkStore w (effects s) (promises s).

(** Assignment to a field of the hook instance at [l]. *)
Definition assign (l : loc) (f : Hook -> Hook) (w : World) : World :=
  setHeap (alter f l (heap w)) w.

Definition hookAt (l : loc) (s : Store) : option Hook := heap (world s) !! l.

(** *** Initial loading (lines 69-80) *)

Definition initialLoading (env : Env) (alovaInstance : Alova)
    (methodHandler : MethodHandler) (useHookConfig : UseHookConfig)
    (immediate : JsVal) (k : CacheState) : bool * CacheState :=
  if truthy immediate then
    let '(cachedResponse, k') :=
      getResponseCache env (alovaId alovaInstance)
        (key env (getHandlerMethod methodHandler)) k in
    let forceRequestFinally :=
      sloughConfig (coalesceCfg (force useHookConfig) falseValue) in
    (truthy forceRequestFinally || negb (truthy cachedResponse), k')
  else (false, k).

(** *** Hook instance and front states (lines 82-96) *)

(** [{ total: 0, loaded: 0 }] *)
Definition progress : JsVal :=
  VObj [("total"%string, VNum 0); ("loaded"%string, VNum 0)].

(** The handles createRequestState creates itself. *)
Record CoreStates : Type := mkCore {
  coreData : State;
  coreLoading : State;
  coreError : State;
  coreDownloading : State;
  coreUploading : State
}.

(** The five [create] calls, in source order. *)
Definition createCore (hk : StatesHook) (initialData : JsVal)
    (initLoading : bool) (hookInstance : loc) (h : HostState)
    : CoreStates * HostState :=
  let '(d, h) := create hk initialData hookInstance h in
  let '(l, h) := create hk (VBool initLoading) hookInstance h in
  let '(e, h) := create hk undefinedValue hookInstance h in
  let '(dl, h) := create hk progress hookInstance h in
  let '(ul, h) := create hk progress hookInstance h in
  (mkCore d l e dl ul, h).

(** [{ ...managedStates, data, loading, error, downloading, uploading }] *)
Definition mergeFrontStates (managed : gmap string State) (core : CoreStates)
    : gmap string State :=
  <["uploading"%string := coreUploading core]>
    (<["downloading"%string := coreDownloading core]>
      (<["error"%string := coreError core]>
        (<["loading"%string := coreLoading core]>
          (<["data"%string := coreData core]> managed)))).

(** [refCurrent(ref(createHook(hookType, useHookConfig)))]: the new hook
    object is allocated, and the host's [ref] decides which object is the
    hook instance. *)
Definition obtainHook (hk : StatesHook) (hookType : HookType)
    (useHookConfig : UseHookConfig) (w : World) : loc * World :=
  let created := length (heap w) in
  let w := setHeap (heap w ++ [createHook hookType useHookConfig]) w in
  match ref hk with
  | None => (created, w)
  | Some hostRef =>
      let '(l, h) := hostRef created (hostSt w) in (l, setHost h w)
  end.

(** What entering the orchestration yields for the later steps. *)
Record Entered : Type := mkEntered {
  enHook : loc;
  enCore : CoreStates;
  enFront : gmap string State
}.

(** Lines 58-116: everything up to, and without, the effect registration.
    The copy of the config made at line 58 has the entries of the config
    given; configs are values here, so the copy is the config itself. *)
Definition enterContext (env : Env) (hk : StatesHook) (hookType : HookType)
    (alovaInstance : Alova) (methodHandler : MethodHandler)
    (useHookConfig : UseHookConfig) (initialData immediate : JsVal)
    (w : World) : Entered * World :=
  let '(initLoading, k) :=
    initialLoading env alovaInstance methodHandler useHookConfig immediate
      (cacheSt w) in
  let w := setCache k w in
  let '(hookInstance, w) := obtainHook hk hookType useHookConfig w in
  let managed := default ∅ (managedStates useHookConfig) in
  let '(core, h) :=
    createCore hk initialData initLoading hookInstance (hostSt w) in
  let w := setHost h w in
  let front := mergeFrontStates managed core in
  let w := assign hookInstance (set_fs front) w in
  let w := assign hookInstance (set_sh []) w in
  let w := assign hookInstance (set_eh []) w in
  let w := assign hookInstance (set_ch []) w in
  let w := assign hookInstance (set_c useHookConfig) w in
  (mkEntered hookInstance core front, w).

(** *** Effect registration (lines 117-136) *)

(** The delay function given to [debounce] (lines 124-126). *)
Definition debounceDelayFn (debounceDelay : DebounceDelay)
    (changedIndex : JsVal) : JsVal :=
  if isNumber changedIndex then
    if isArray debounceDelay then
      match debounceDelay, changedIndex with
      | DelayArray ds, VNum i => jsIndex ds i
      | _, _ => VUndef
      end
    else
      match debounceDelay with
      | DelayNumber d => VNum d
      | DelayArray _ => VUndef
      end
  else VNum 0.

Definition hasWatchingStates (watchingStates : option (list Watched)) : bool :=
  match watchingStates with
  | Some _ => true
  | None => false
  end.

(** The object built at lines 120-133. *)
Definition effectParams (methodHandler : MethodHandler) (en : Entered)
    (immediate : JsVal) (watchingStates : option (list Watched))
    (debounceDelay : DebounceDelay) : EffectParams :=
  let wrapEffectRequest := WrapEffectRequest (enHook en) methodHandler in
  mkEffect
    (if hasWatchingStates watchingStates
     then Debounced wrapEffectRequest (debounceDelayFn debounceDelay)
     else wrapEffectRequest)
    (RunRemoveFns (enHook en))
    (RunSaveFns (enHook en))
    (enFront en)
    watchingStates
    (coalesce immediate trueValue).

(** The call of the host's [effectRequest], recorded among the
    registrations. *)
Definition registerEffect (hk : StatesHook) (params : EffectParams)
    (hookInstance : loc) (s : Store) : Store :=
  mkStore
    (setHost (effectRequest hk params hookInstance (hostSt (world s)))
       (world s))
    (effects s ++ [(params, hookInstance)])
    (promises s).

(** *** The returned object (lines 138-183) *)

Record RequestState : Type := mkRequestState {
  loading : Exported;
  data : Exported;
  error : Exported;
  downloading : Exported;
  uploading : Exported;
  config_c : UseHookConfig;          (* [_$c] *)
  (* what the operations close over *)
  rsStatesHook : StatesHook;
  rsHookInstance : loc;
  rsFrontStates : gmap string State;
  rsMethodHandler : MethodHandler
}.

(** The five [export] calls, in source order (lines 138-144). *)
Definition exportStates (hk : StatesHook) (core : CoreStates)
    (hookInstance : loc) (h : HostState)
    : (Exported * Exported * Exported * Exported * Exported) * HostState :=
  let '(l, h) := stateExport hk (coreLoading core) hookInstance h in
  let '(d, h) := stateExport hk (coreData core) hookInstance h in
  let '(e, h) := stateExport hk (coreError core) hookInstance h in
  let '(dl, h) := stateExport hk (coreDownloading core) hookInstance h in
  let '(ul, h) := stateExport hk (coreUploading core) hookInstance h in
  ((l, d, e, dl, ul), h).

(** The whole call.  [myAssert] throws when the alova instance has no states
    hook.  The functions of the caller and of the host that the call runs
    (the method handler, [force], [create], [ref], [export] and
    [effectRequest]) are functions that return a value here: a call in which
    one of them throws ends with that exception at that point, and such
    calls are not described. *)
Definition createRequestState (env : Env) (hookType : HookType)
    (alovaInstance : Alova) (methodHandler : MethodHandler)
    (useHookConfig : UseHookConfig) (initialData : JsVal)
    (immediate : JsVal) (watchingStates : option (list Watched))
    (debounceDelay : option DebounceDelay) (s : Store)
    : Result (RequestState * Store) :=
  let immediate := paramDefault immediate falseValue in
  let debounceDelay := default (DelayNumber 0) debounceDelay in
  match statesHook alovaInstance with
  | None => Throw "`statesHook` is not found on alova instance."
  | Some hk =>
      let '(en, w) :=
        enterContext env hk hookType alovaInstance methodHandler
          useHookConfig initialData immediate (world s) in
      let s := setWorld w s in
      let s :=
        if isSSR env then s
        else registerEffect hk
               (effectParams methodHandler en immediate watchingStates
                  debounceDelay)
               (enHook en) s in
      let '((l, d, e, dl, ul), h) :=
        exportStates hk (enCore en) (enHook en) (hostSt (world s)) in
      let s := setWorld (setHost h (world s)) s in
      Ok (mkRequestState l d e dl ul useHookConfig
            hk (enHook en) (enFront en) methodHandler, s)
  end.

(** Modelled from the spec: [pushItem(ary, item)] of utils/variables is
    [ary.push(item)], which appends, so that registration order is
    invocation order. *)
Definition pushItem {A : Type} (ary : list A) (item : A) : list A :=
  ary ++ [item].

Definition onSuccess (r : RequestState) (handler : Callback) (s : Store)
    : Store :=
  setWorld
    (assign (rsHookInstance r) (fun h => set_sh (pushItem (sh h) handler) h)
       (world s)) s.

Definition onError (r : RequestState) (handler : Callback) (s : Store)
    : Store :=
  setWorld
    (assign (rsHookInstance r) (fun h => set_eh (pushItem (eh h) handler) h)
       (world s)) s.

Definition onComplete (r : RequestState) (handler : Callback) (s : Store)
    : Store :=
  setWorld
    (assign (rsHookInstance r) (fun h => set_ch (pushItem (ch h) handler) h)
       (world s)) s.

(** The patch as [update] hands it to the host (lines 161-165): the patch
    object itself, changed in place when [fetching] is truthy. *)
Definition translatePatch (newStates : gmap string JsVal)
    : gmap string JsVal :=
  let fetching := default VUndef (newStates !! "fetching"%string) in
  if truthy fetching
  then delete "fetching"%string (<["loading"%string := fetching]> newStates)
  else newStates.

(** [update(newStates)]: returns what the patch object holds afterwards,
    and the store. *)
Definition update (r : RequestState) (newStates : gmap string JsVal)
    (s : Store) : gmap string JsVal * Store :=
  let newStates := translatePatch newStates in
  (newStates,
   setWorld
     (setHost
        (stateUpdate (rsStatesHook r) newStates (rsFrontStates r)
           (rsHookInstance r) (hostSt (world s)))
        (world s)) s).

(** Calling the function held in [ar]. *)
Definition callAbort (env : Env) (a : AbortFn) (w : World) : World :=
  match a with
  | AbortNoop => w
  | AbortTransport rid => transportAbort env rid w
  end.

(** [abort()]: [hookInstance.ar()]. *)
Definition abort (env : Env) (r : RequestState) (s : Store) : Store :=
  match hookAt (rsHookInstance r) s with
  | Some h => setWorld (callAbort env (ar h) (world s)) s
  | None => s
  end.

(** [handleRequest(handler = methodHandler, sendCallingArgs,
    updateCacheState)]: the attempt is made and its promise returned. *)
Definition handleRequest (env : Env) (hookInstance : loc)
    (methodHandler : MethodHandler) (handler : option MethodHandler)
    (sendCallingArgs : option (list JsVal)) (updateCacheState : JsVal)
    (s : Store) : nat * Store :=
  let '(o, w) :=
    useHookToSendRequest env hookInstance (default methodHandler handler)
      sendCallingArgs updateCacheState (world s) in
  (length (promises s),
   mkStore w (effects s) (promises s ++ [mkCell o false])).

(** [wrapEffectRequest()]: [promiseCatch(handleRequest(), noop)], the
    promise of the catch being dropped. *)
Definition wrapEffectRequest (env : Env) (hookInstance : loc)
    (methodHandler : MethodHandler) (s : Store) : Store :=
  let '(p, s) :=
    handleRequest env hookInstance methodHandler None None VUndef s in
  let '(_, ps) := promiseCatch p noop (promises s) in
  mkStore (world s) (effects s) ps.

(** [send(sendCallingArgs, methodInstance, isFetcher)] *)
Definition send (env : Env) (r : RequestState)
    (sendCallingArgs : option (list JsVal)) (methodInstance : option Method)
    (isFetcher : JsVal) (s : Store) : nat * Store :=
  handleRequest env (rsHookInstance r) (rsMethodHandler r)
    (MethodInstance <$> methodInstance) sendCallingArgs isFetcher s.

(** The assignments of lines 112-116 taken together, on one hook
    instance. *)
Definition resetHook (front : gmap string State) (cfg : UseHookConfig)
    (h : Hook) : Hook :=
  mkHook (ht h) front [] [] [] (rf h) (sf h) (ar h) cfg.

(** What runs when the handler's call takes place.  [debounce] of
    utils/helper only delays the call of the function it wraps (by what the
    delay function returns for the changed index); the waiting is not
    modelled. *)
Fixpoint fire (env : Env) (h : EffectHandler) (s : Store) : Store :=
  match h with
  | WrapEffectRequest hookInstance methodHandler =>
      wrapEffectRequest env hookInstance methodHandler s
  | Debounced fn _ => fire env fn s
  end.

(** The effect registrations a call has added to those of [s]. *)
Definition registered (res : Result (RequestState * Store)) (s : Store)
    : list (EffectParams * loc) :=
  match res with
  | Ok (_, s') => drop (length (effects s)) (effects s')
  | Throw _ => []
  end.

(** The same collaborators with another value of the [isSSR] constant. *)
Definition withSSR (ssr : bool) (env : Env) : Env :=
  mkEnv (key env) (getResponseCache env) (useHookToSendRequest env)
    (transportAbort env) ssr.

(** Registering the handlers of a list one after the other. *)
Definition registerAll (register : Callback -> Store -> Store)
    (handlers : list Callback) (s : Store) : Store :=
  foldl (fun st handler => register handler st) s handlers.

End Orchestrator.

(** ** A concrete host

    Handles are numbers; the host keeps the initial value of every handle it
    created, the patches it was asked to merge and, for its [ref], the hook
    instance of the first entry. *)

Record DemoHost : Type := mkDemoHost {
  created : list JsVal;
  patches : list (gmap string JsVal);
  kept : option loc
}.

#[global] Instance demoTypes : HostTypes := {|
  State := nat;
  Exported := nat;
  HostState := DemoHost;
  Method := string;
  Watched := nat;
  CacheState := gmap string JsVal
|}.

Definition demoCreate (v : JsVal) (_ : loc) (h : DemoHost) : nat * DemoHost :=
  (length (created h), mkDemoHost (created h ++ [v]) (patches h) (kept h)).

Definition demoExport (st : nat) (_ : loc) (h : DemoHost) : nat * DemoHost :=
  (st, h).

Definition demoEffectRequest (_ : EffectParams) (_ : loc) (h : DemoHost)
    : DemoHost := h.

Definition demoUpdate (patch : gmap string JsVal) (_ : gmap string nat)
    (_ : loc) (h : DemoHost) : DemoHost :=
  mkDemoHost (created h) (patches h ++ [patch]) (kept h).

(** A [ref] that keeps the hook instance of the first entry. *)
Definition demoRef (l : loc) (h : DemoHost) : loc * DemoHost :=
  match kept h with
  | Some l0 => (l0, h)
  | None => (l, mkDemoHost (created h) (patches h) (Some l))
  end.

(** A states hook without [ref], and one with it. *)
Definition plainHook : StatesHook :=
  mkStatesHook demoCreate demoExport demoEffectRequest demoUpdate None.
Definition keepingHook : StatesHook :=
  mkStatesHook demoCreate demoExport demoEffectRequest demoUpdate
    (Some demoRef).

Definition demoAlova (hk : StatesHook) : Alova :=
  mkAlova "alova"%string (Some hk).

(** An alova instance created without a states hook. *)
Definition bareAlova : Alova := mkAlova "alova"%string None.

(** Collaborators: the key of a method is its url, the cache is a map from
    keys to responses, every attempt is rejected with the same error. *)
Definition demoEnv (ssr : bool) : Env :=
  mkEnv (fun m => m)
    (fun _ k cache => (default VUndef (cache !! k), cache))
    (fun _ _ _ _ w => (Rejected (VStr "boom"%string), w))
    (fun _ w => w)
    ssr.

Definition demoConfig : UseHookConfig := mkConfig (Plain VUndef) None.


(** A config whose managed states use the name data and a name of their
    own. *)
Definition managedConfig : UseHookConfig :=
  mkConfig (Plain VUndef)
    (Some (<["data"%string := 99]> {["extra"%string := 42]})).

(** Two method instances, given by their urls. *)
Definition todoMethod : MethodHandler := MethodInstance "/todo"%string.
Definition countMethod : MethodHandler := MethodInstance "/count"%string.

Definition emptyHost : DemoHost := mkDemoHost [] [] None.

Definition demoStore (cache : gmap string JsVal) : Store :=
  mkStore (mkWorld [] emptyHost cache) [] [].

(** A store in which the host's [ref] holds a hook instance of an earlier
    entry, with handlers registered and with remove-states and save-states
    functions pushed by earlier requests. *)
Definition usedHook : Hook :=
  mkHook HOOK_REQUEST ∅ [1] [2] [3] [7] [8] AbortNoop demoConfig.
Definition usedStore : Store :=
  mkStore (mkWorld [usedHook] (mkDemoHost [] [] (Some 0)) ∅) [] [].

(** The object an earlier entry on that hook instance has returned. *)
Definition usedState : RequestState :=
  mkRequestState 1 0 2 3 4 demoConfig keepingHook 0 ∅ todoMethod.

(** * Properties *)

Section Properties.

Context {tys : HostTypes}.

(** ** Promise table *)

Lemma unhandledFrom_app (n : nat) (ps qs : list PromiseCell) :
  unhandledFrom n (ps ++ qs)
  = unhandledFrom n ps ++ unhandledFrom (n + length ps) qs.
Proof.
  revert n. induction ps as [|p ps IH]; intros n; simpl.
  - by rewrite Nat.add_0_r.
  - rewrite IH.
    replace (n + S (length ps)) with (S n + length ps) by lia.
    by destruct (isRejected (outcome p) && negb (handled p)).
Qed.

Lemma alter_last (f : PromiseCell -> PromiseCell) (ps : list PromiseCell)
    (cell : PromiseCell) :
  alter f (length ps) (ps ++ [cell]) = ps ++ [f cell].
Proof.
  induction ps as [|p ps IH]; [done|].
  change (p :: alter f (length ps) (ps ++ [cell]) = p :: (ps ++ [f cell])).
  by rewrite IH.
Qed.

(** Catching with [noop] the promise just added leaves the unhandled
    rejections as they were before it was added. *)
Lemma catch_noop_last (ps : list PromiseCell) (o : Outcome) :
  unhandledRejections
    (snd (promiseCatch (length ps) noop (ps ++ [mkCell o false])))
  = unhandledRejections ps.
Proof.
  unfold promiseCatch, unhandledRejections.
  rewrite lookup_app_r, Nat.sub_diag by lia.
  cbn [lookup list_lookup snd].
  rewrite alter_last, <- app_assoc, unhandledFrom_app.
  destruct o; simpl; by rewrite app_nil_r.
Qed.

(** ** Initial loading *)

Lemma initialLoading_value (env : Env) (a : Alova) (mh : MethodHandler)
    (cfg : UseHookConfig) (imm : JsVal) (k : CacheState) :
  fst (initialLoading env a mh cfg imm k)
  = truthy imm
    && (truthy (sloughConfig (coalesceCfg (force cfg) falseValue))
        || negb (truthy (fst (getResponseCache env (alovaId a)
                                (key env (getHandlerMethod mh)) k)))).
Proof.
  unfold initialLoading. destruct (truthy imm); [|done].
  by destruct (getResponseCache _ _ _ _).
Qed.

(** ** Entering the orchestration *)

Lemma obtainHook_heap (hk : StatesHook) (hookType : HookType)
    (cfg : UseHookConfig) (w : World) :
  heap (snd (obtainHook hk hookType cfg w))
  = heap w ++ [createHook hookType cfg].
Proof.
  unfold obtainHook. destruct (ref hk) as [hostRef|]; [|done].
  simpl. by destruct (hostRef _ _).
Qed.

Lemma obtainHook_default (hk : StatesHook) (hookType : HookType)
    (cfg : UseHookConfig) (w : World) :
  ref hk = None -> fst (obtainHook hk hookType cfg w) = length (heap w).
Proof. unfold obtainHook. by intros ->. Qed.

Lemma alter_reset (l : loc) (front : gmap string State)
    (cfg : UseHookConfig) (hp : list Hook) :
  alter (set_c cfg) l (alter (set_ch []) l (alter (set_eh []) l
    (alter (set_sh []) l (alter (set_fs front) l hp))))
  = alter (resetHook front cfg) l hp.
Proof.
  rewrite !list_alter_alter_eq. apply list_alter_ext; [|done].
  by intros [].
Qed.

Lemma enterContext_heap (env : Env) (hk : StatesHook) (hookType : HookType)
    (a : Alova) (mh : MethodHandler) (cfg : UseHookConfig)
    (d imm : JsVal) (w : World) (en : Entered) (w1 : World) :
  enterContext env hk hookType a mh cfg d imm w = (en, w1) ->
  heap w1 = alter (resetHook (enFront en) cfg) (enHook en)
              (heap w ++ [createHook hookType cfg])
  /\ enFront en = mergeFrontStates (default ∅ (managedStates cfg)) (enCore en)
  /\ exists h0 h1,
       createCore hk d (fst (initialLoading env a mh cfg imm (cacheSt w)))
         (enHook en) h0 = (enCore en, h1).
Proof.
  unfold enterContext.
  destruct (initialLoading _ _ _ _ _ _) as [b k] eqn:Hb.
  destruct (obtainHook _ _ _ _) as [l w0] eqn:Ho.
  destruct (createCore _ _ _ _ _) as [core h1] eqn:Hc.
  intros [= <- <-]. simpl. split; [|split; [done|eauto]].
  rewrite alter_reset. f_equal.
  pose proof (obtainHook_heap hk hookType cfg (setCache k w)) as Hh.
  by rewrite Ho in Hh.
Qed.

(** ** The whole call *)

(** With a states hook on the alova instance the call returns, and its
    result is that of entering, registering the effect unless [isSSR], and
    exporting. *)
Lemma createRequestState_ok (env : Env) (hookType : HookType) (a : Alova)
    (mh : MethodHandler) (cfg : UseHookConfig) (d imm : JsVal)
    (ws : option (list Watched)) (dd : option DebounceDelay) (s : Store)
    (hk : StatesHook) :
  statesHook a = Some hk ->
  exists r s' en w1,
    createRequestState env hookType a mh cfg d imm ws dd s = Ok (r, s')
    /\ enterContext env hk hookType a mh cfg d (paramDefault imm falseValue)
         (world s) = (en, w1)
    /\ rsHookInstance r = enHook en
    /\ rsFrontStates r = enFront en
    /\ rsMethodHandler r = mh
    /\ rsStatesHook r = hk
    /\ config_c r = cfg
    /\ heap (world s') = heap w1
    /\ promises s' = promises s
    /\ effects s'
       = effects s
         ++ (if isSSR env then []
             else [(effectParams mh en (paramDefault imm falseValue) ws
                      (default (DelayNumber 0) dd), enHook en)])
    /\ exists h h',
         exportStates hk (enCore en) (enHook en) h
         = ((loading r, data r, error r, downloading r, uploading r), h').
Proof.
  intros Hhk. unfold createRequestState. rewrite Hhk.
  destruct (enterContext _ _ _ _ _ _ _ _ _) as [en w1] eqn:Hen.
  destruct (isSSR env).
  - destruct (exportStates _ _ _ _) as [[[[[l dt] e] dl] ul] h] eqn:Hex.
    eexists _, _, en, w1. simpl. rewrite app_nil_r.
    do 9 (split; [done|]). eauto.
  - destruct (exportStates _ _ _ _) as [[[[[l dt] e] dl] ul] h] eqn:Hex.
    eexists _, _, en, w1. simpl.
    do 9 (split; [done|]). eauto.
Qed.

Lemma registered_ok (env : Env) (hookType : HookType) (a : Alova)
    (mh : MethodHandler) (cfg : UseHookConfig) (d imm : JsVal)
    (ws : option (list Watched)) (dd : option DebounceDelay) (s : Store)
    (hk : StatesHook) :
  statesHook a = Some hk ->
  exists r s' en w1,
    createRequestState env hookType a mh cfg d imm ws dd s = Ok (r, s')
    /\ enterContext env hk hookType a mh cfg d (paramDefault imm falseValue)
         (world s) = (en, w1)
    /\ rsHookInstance r = enHook en
    /\ registered (createRequestState env hookType a mh cfg d imm ws dd s) s
       = if isSSR env then []
         else [(effectParams mh en (paramDefault imm falseValue) ws
                  (default (DelayNumber 0) dd), enHook en)].
Proof.
  intros Hhk.
  destruct (createRequestState_ok env hookType a mh cfg d imm ws dd s hk Hhk)
    as (r & s' & en & w1 & Hr & Hen & Hl & _ & _ & _ & _ & _ & _ & He & _).
  exists r, s', en, w1. repeat split; try done.
  rewrite Hr. unfold registered. rewrite He. apply drop_app_length.
Qed.

(** ** The immediate flag of the registration *)

(** C2, as the code has it: outside server rendering the call registers
    exactly one effect; when the immediate flag is left unspecified the
    parameter default makes it false, and the registration carries
    [immediate = false]; a boolean given by the caller is carried as it
    is. *)
Theorem C2_unspecified_immediate_registers_false (env : Env)
    (hookType : HookType) (a : Alova) (mh : MethodHandler)
    (cfg : UseHookConfig) (d : JsVal) (ws : option (list Watched))
    (dd : option DebounceDelay) (s : Store) (hk : StatesHook) :
  statesHook a = Some hk ->
  isSSR env = false ->
  (immediate ∘ fst)
    <$> registered
          (createRequestState env hookType a mh cfg d VUndef ws dd s) s
  = [falseValue]
  /\ forall b : bool,
       (immediate ∘ fst)
         <$> registered
               (createRequestState env hookType a mh cfg d (VBool b) ws dd s)
               s
       = [VBool b].
Proof.
  intros Hhk Hssr. split; [|intros b].
  - destruct (registered_ok env hookType a mh cfg d VUndef ws dd s hk Hhk)
      as (r & s' & en & w1 & _ & _ & _ & ->).
    by rewrite Hssr.
  - destruct (registered_ok env hookType a mh cfg d (VBool b) ws dd s hk Hhk)
      as (r & s' & en & w1 & _ & _ & _ & ->).
    by rewrite Hssr.
Qed.

(** ** Re-initialisation of the hook instance *)

(** C3, as the code has it: on every entry, before the effect is registered,
    the hook instance has its success, error and complete handler lists
    replaced by empty lists and its front states and config rebound to those
    of this call; its remove-states and save-states lists and its abort
    function are left as the instance returned by the host's [ref] had them.
    The effect registration and the exports leave the instance as it is, so
    a handler registered after the entry is the only element of its list. *)
Theorem C3_entry_resets_handler_lists (env : Env) (hookType : HookType)
    (a : Alova) (mh : MethodHandler) (cfg : UseHookConfig) (d imm : JsVal)
    (ws : option (list Watched)) (dd : option DebounceDelay) (s : Store)
    (hk : StatesHook) :
  statesHook a = Some hk ->
  exists r s' en w1,
    createRequestState env hookType a mh cfg d imm ws dd s = Ok (r, s')
    /\ enterContext env hk hookType a mh cfg d (paramDefault imm falseValue)
         (world s) = (en, w1)
    /\ rsHookInstance r = enHook en
    /\ heap (world s') = heap w1
    /\ forall h0 : Hook,
         (heap (world s) ++ [createHook hookType cfg]) !! enHook en = Some h0 ->
         heap w1 !! enHook en
         = Some (mkHook (ht h0) (enFront en) [] [] [] (rf h0) (sf h0) (ar h0)
                   cfg)
         /\ forall handler : Callback,
              sh <$> hookAt (enHook en) (onSuccess r handler s')
              = Some [handler]
              /\ eh <$> hookAt (enHook en) (onError r handler s')
                 = Some [handler]
              /\ ch <$> hookAt (enHook en) (onComplete r handler s')
                 = Some [handler].
Proof.
  intros Hhk.
  destruct (createRequestState_ok env hookType a mh cfg d imm ws dd s hk Hhk)
    as (r & s' & en & w1 & Hr & Hen & Hl & _ & _ & _ & _ & Hhp & _ & _ & _).
  exists r, s', en, w1.
  do 4 (split; [done|]). intros h0 Hh0.
  destruct (enterContext_heap _ _ _ _ _ _ _ _ _ _ _ Hen) as (Hw1 & _ & _).
  assert (heap w1 !! enHook en
          = Some (mkHook (ht h0) (enFront en) [] [] [] (rf h0) (sf h0)
                    (ar h0) cfg)) as Hreset
    by (by rewrite Hw1, list_lookup_alter_eq, Hh0).
  split; [done|]. intros handler.
  unfold hookAt, onSuccess, onError, onComplete, assign. simpl.
  rewrite Hl, Hhp, !list_lookup_alter_eq, Hreset. done.
Qed.

Lemma enterContext_hook_default (env : Env) (hk : StatesHook)
    (hookType : HookType) (a : Alova) (mh : MethodHandler)
    (cfg : UseHookConfig) (d imm : JsVal) (w : World) (en : Entered)
    (w1 : World) :
  ref hk = None ->
  enterContext env hk hookType a mh cfg d imm w = (en, w1) ->
  enHook en = length (heap w).
Proof.
  unfold enterContext. intros Href.
  destruct (initialLoading _ _ _ _ _ _) as [b k].
  pose proof (obtainHook_default hk hookType cfg (setCache k w) Href) as Hl.
  destruct (obtainHook _ _ _ _) as [l w0].
  destruct (createCore _ _ _ _ _) as [core h1].
  by intros [= <- <-].
Qed.

(** ** The handler of the registration *)

(** C5: outside server rendering the call registers one effect.  Without
    watched states ([watchingStates] undefined) its handler is the
    error-catching call of handleRequest itself; with watched states, the
    empty array included, it is the debounced version of that same
    function, with the delay function of lines 124-126. *)
Theorem C5_handler_plain_or_debounced (env : Env) (hookType : HookType)
    (a : Alova) (mh : MethodHandler) (cfg : UseHookConfig) (d imm : JsVal)
    (ws : option (list Watched)) (dd : option DebounceDelay) (s : Store)
    (hk : StatesHook) :
  statesHook a = Some hk ->
  isSSR env = false ->
  exists r s',
    createRequestState env hookType a mh cfg d imm ws dd s = Ok (r, s')
    /\ (handler ∘ fst)
         <$> registered
               (createRequestState env hookType a mh cfg d imm ws dd s) s
       = [match ws with
          | None => WrapEffectRequest (rsHookInstance r) mh
          | Some _ =>
              Debounced (WrapEffectRequest (rsHookInstance r) mh)
                (debounceDelayFn (default (DelayNumber 0) dd))
          end]
    /\ forall s0 : Store,
         fire env (WrapEffectRequest (rsHookInstance r) mh) s0
         = wrapEffectRequest env (rsHookInstance r) mh s0.
Proof.
  intros Hhk Hssr.
  destruct (registered_ok env hookType a mh cfg d imm ws dd s hk Hhk)
    as (r & s' & en & w1 & Hr & _ & Hl & ->).
  exists r, s'. rewrite Hssr, Hl. split; [done|]. split; [|done].
  by destruct ws.
Qed.

(** ** The delay function *)

(** C6: the delay function given to the debounce returns 0 for a trigger
    without changed index (and for any index that is not a number); for a
    changed index [i] it returns the [i]-th entry of the configured delays
    when these are an array, and the configured delay, whatever [i] is, when
    it is a single number; an unset delay is 0. *)
Theorem C6_delay_of_changed_index (dd : option DebounceDelay) :
  let delay := debounceDelayFn (default (DelayNumber 0) dd) in
  delay VUndef = VNum 0
  /\ (forall v : JsVal, isNumber v = false -> delay v = VNum 0)
  /\ (forall (ds : list Z) (i : nat) (ms : Z),
        dd = Some (DelayArray ds) -> ds !! i = Some ms ->
        delay (VNum (Z.of_nat i)) = VNum ms)
  /\ (forall (ds : list Z) (i : Z),
        dd = Some (DelayArray ds) -> delay (VNum i) = jsIndex ds i)
  /\ (forall ms i : Z, dd = Some (DelayNumber ms) -> delay (VNum i) = VNum ms)
  /\ (dd = None -> forall i : Z, delay (VNum i) = VNum 0).
Proof.
  simpl. repeat split.
  - intros v Hv. unfold debounceDelayFn. by rewrite Hv.
  - intros ds i ms -> Hi.
    change (jsIndex ds (Z.of_nat i) = VNum ms). unfold jsIndex.
    destruct (Z.ltb_spec (Z.of_nat i) 0) as [Hneg|_]; [lia|].
    by rewrite Nat2Z.id, Hi.
  - by intros ds i ->.
  - by intros ms i ->.
  - by intros ->.
Qed.

(** ** Rejections on the effect path and on direct calls *)

(** C7: calling the effect wrapper makes the attempt and, whatever the
    attempt's promise settles to, leaves the unhandled rejections of the
    promise table as they were: the rejection is caught.  A direct [send]
    whose attempt is rejected returns the rejected promise itself, with no
    handler attached. *)
Theorem C7_wrapper_catches_send_rejects (env : Env) (l : loc)
    (mh : MethodHandler) (r : RequestState)
    (args : option (list JsVal)) (m : option Method) (isFetcher : JsVal)
    (s : Store) :
  unhandledRejections (promises (wrapEffectRequest env l mh s))
  = unhandledRejections (promises s)
  /\ world (wrapEffectRequest env l mh s)
     = snd (useHookToSendRequest env l mh None VUndef (world s))
  /\ forall (e : JsVal) (w' : World),
       useHookToSendRequest env (rsHookInstance r)
         (default (rsMethodHandler r) (MethodInstance <$> m)) args isFetcher
         (world s) = (Rejected e, w') ->
       promises (snd (send env r args m isFetcher s))
         !! fst (send env r args m isFetcher s)
       = Some (mkCell (Rejected e) false)
       /\ fst (send env r args m isFetcher s)
          ∈ unhandledRejections
              (promises (snd (send env r args m isFetcher s))).
Proof.
  split; [|split].
  - unfold wrapEffectRequest, handleRequest. simpl.
    destruct (useHookToSendRequest _ _ _ _ _ _) as [o w]. simpl.
    pose proof (catch_noop_last (promises s) o) as Hc.
    by destruct (promiseCatch _ _ _).
  - unfold wrapEffectRequest, handleRequest. simpl.
    destruct (useHookToSendRequest _ _ _ _ _ _) as [o w]. simpl.
    by destruct (promiseCatch _ _ _).
  - intros e w' Hrej. unfold send, handleRequest. rewrite Hrej. simpl.
    split.
    + by rewrite lookup_app_r, Nat.sub_diag by lia.
    + unfold unhandledRejections. rewrite unhandledFrom_app. simpl.
      apply elem_of_app. right. apply list_elem_of_singleton. done.
Qed.

(** ** Server rendering *)

(** C8: when [isSSR] holds the call registers no effect: the list of
    registrations is the one before the call, and so is the promise table,
    no attempt having been made. *)
Theorem C8_no_effect_when_ssr (env : Env) (hookType : HookType) (a : Alova)
    (mh : MethodHandler) (cfg : UseHookConfig) (d imm : JsVal)
    (ws : option (list Watched)) (dd : option DebounceDelay) (s : Store) :
  isSSR env = true ->
  registered (createRequestState env hookType a mh cfg d imm ws dd s) s = []
  /\ match createRequestState env hookType a mh cfg d imm ws dd s with
     | Ok (_, s') => effects s' = effects s /\ promises s' = promises s
     | Throw _ => statesHook a = None
     end.
Proof.
  intros Hssr. destruct (statesHook a) as [hk|] eqn:Hhk.
  - destruct (registered_ok env hookType a mh cfg d imm ws dd s hk Hhk)
      as (r & s' & en & w1 & Hr & _ & _ & Hreg).
    rewrite Hreg, Hssr. split; [done|].
    destruct (createRequestState_ok env hookType a mh cfg d imm ws dd s hk Hhk)
      as (r2 & s2 & en2 & w2 & Hr2 & _ & _ & _ & _ & _ & _ & _ & Hp & He & _).
    rewrite Hr2, He, Hp, Hssr. by rewrite app_nil_r.
  - unfold createRequestState. by rewrite Hhk.
Qed.

(** ** Front states *)

Lemma mergeFrontStates_core (managed : gmap string State)
    (core : CoreStates) :
  mergeFrontStates managed core !! "data"%string = Some (coreData core)
  /\ mergeFrontStates managed core !! "loading"%string
     = Some (coreLoading core)
  /\ mergeFrontStates managed core !! "error"%string = Some (coreError core)
  /\ mergeFrontStates managed core !! "downloading"%string
     = Some (coreDownloading core)
  /\ mergeFrontStates managed core !! "uploading"%string
     = Some (coreUploading core).
Proof. unfold mergeFrontStates. repeat split; by simplify_map_eq. Qed.



(** ** The patch of update *)

Lemma translatePatch_fetching_truthy (v : JsVal) :
  truthy v = true ->
  translatePatch {["fetching"%string := v]} = {["loading"%string := v]}.
Proof.
  intros Hv. unfold translatePatch.
  rewrite lookup_singleton_eq. simpl. rewrite Hv.
  rewrite delete_insert_ne by done.
  by rewrite delete_singleton_eq, insert_empty.
Qed.

Lemma translatePatch_fetching_falsy (newStates : gmap string JsVal) :
  truthy (default VUndef (newStates !! "fetching"%string)) = false ->
  translatePatch newStates = newStates.
Proof. intros Hv. unfold translatePatch. by rewrite Hv. Qed.

Lemma translatePatch_loading (v : JsVal) :
  translatePatch {["loading"%string := v]} = {["loading"%string := v]}.
Proof. apply translatePatch_fetching_falsy. by rewrite lookup_singleton_ne. Qed.

(** [update({ fetching: true })] does what [update({ loading: true })]
    does, to the patch object and to the store. *)
Lemma update_fetching_truthy (r : RequestState) (v : JsVal) (s : Store) :
  truthy v = true ->
  update r {["fetching"%string := v]} s = update r {["loading"%string := v]} s.
Proof.
  intros Hv. unfold update.
  by rewrite translatePatch_fetching_truthy, translatePatch_loading.
Qed.

(** ** Initial loading, by cases *)

Lemma initialLoading_cases (env : Env) (a : Alova) (mh : MethodHandler)
    (cfg : UseHookConfig) (imm : JsVal) (k : CacheState) :
  let cached :=
    fst (getResponseCache env (alovaId a) (key env (getHandlerMethod mh)) k) in
  let forced := truthy (sloughConfig (coalesceCfg (force cfg) falseValue)) in
  (truthy imm = false -> fst (initialLoading env a mh cfg imm k) = false)
  /\ (truthy imm = true -> forced = true ->
      fst (initialLoading env a mh cfg imm k) = true)
  /\ (truthy imm = true -> cached = VUndef ->
      fst (initialLoading env a mh cfg imm k) = true)
  /\ (truthy imm = true -> truthy cached = true ->
      fst (initialLoading env a mh cfg imm k) = forced)
  /\ (truthy imm = true -> truthy cached = false ->
      fst (initialLoading env a mh cfg imm k) = true).
Proof.
  simpl. rewrite initialLoading_value. repeat split.
  - by intros ->.
  - by intros -> ->.
  - by intros -> ->; rewrite orb_true_r.
  - intros -> ->. simpl. by rewrite orb_false_r.
  - by intros -> ->; rewrite orb_true_r.
Qed.

End Properties.

(** * The properties on the concrete host *)

(** C2 as stated fails: with the immediate flag left unspecified, outside
    server rendering, the registration does not carry [immediate = true]. *)
Lemma C2_counterexample :
  (immediate ∘ fst)
    <$> registered
          (createRequestState (demoEnv false) HOOK_REQUEST
             (demoAlova plainHook) todoMethod demoConfig
             VUndef VUndef None None (demoStore ∅))
          (demoStore ∅)
  <> [trueValue].
Proof. vm_compute. discriminate. Qed.

Lemma C2_witness :
  statesHook (demoAlova plainHook) = Some plainHook
  /\ isSSR (demoEnv false) = false
  /\ (immediate ∘ fst)
       <$> registered
             (createRequestState (demoEnv false) HOOK_REQUEST
                (demoAlova plainHook) todoMethod
                demoConfig VUndef VUndef None None (demoStore ∅))
             (demoStore ∅)
     = [falseValue].
Proof.
  split; [reflexivity|]. split; [reflexivity|].
  apply (C2_unspecified_immediate_registers_false (tys := demoTypes)
           (demoEnv false) HOOK_REQUEST (demoAlova plainHook) todoMethod
           demoConfig VUndef None None (demoStore ∅) plainHook);
    reflexivity.
Defined.

(** C3 as stated fails: the host's [ref] returns the hook instance of an
    earlier entry, which holds remove-states and save-states functions.
    After the entry, before the effect is registered, its three handler
    lists are empty and its remove-states and save-states lists are not. *)
Lemma C3_counterexample :
  exists en w1 h,
    enterContext (demoEnv false) keepingHook HOOK_REQUEST
      (demoAlova keepingHook) todoMethod demoConfig
      VUndef falseValue (world usedStore) = (en, w1)
    /\ heap w1 !! enHook en = Some h
    /\ sh h = [] /\ eh h = [] /\ ch h = []
    /\ rf h <> [] /\ sf h <> [].
Proof.
  eexists _, _, _. split; [reflexivity|]. split; [reflexivity|].
  repeat split; discriminate.
Qed.

Lemma C3_witness :
  statesHook (demoAlova keepingHook) = Some keepingHook
  /\ exists r s',
       createRequestState (demoEnv false) HOOK_REQUEST (demoAlova keepingHook)
         todoMethod demoConfig VUndef VUndef None None
         usedStore = Ok (r, s')
       /\ (sh <$> hookAt (rsHookInstance r) s') = Some []
       /\ (rf <$> hookAt (rsHookInstance r) s') = Some [7]
       /\ (sh <$> hookAt (rsHookInstance r) (onSuccess r 5 s')) = Some [5].
Proof.
  split; [reflexivity|].
  destruct (C3_entry_resets_handler_lists (tys := demoTypes)
              (demoEnv false) HOOK_REQUEST
              (demoAlova keepingHook) todoMethod
              demoConfig VUndef VUndef None None usedStore keepingHook
              eq_refl)
    as (r & s' & en & w1 & Hr & Hen & Hl & Hhp & Hreset).
  assert (enHook en = 0) as Hk.
  { apply (f_equal (fun p => enHook (fst p))) in Hen. symmetry. exact Hen. }
  destruct (Hreset usedHook) as [Hh Hreg].
  { rewrite Hk. reflexivity. }
  exists r, s'. split; [exact Hr|]. split; [|split].
  - unfold hookAt. rewrite Hl, Hhp, Hh. reflexivity.
  - unfold hookAt. rewrite Hl, Hhp, Hh. reflexivity.
  - rewrite Hl. exact (proj1 (Hreg 5)).
Defined.

(** C4, at the patch [{ fetching: false }]: the falsy flag is not
    translated, and the host's [update] receives the patch with its
    [fetching] entry and without a [loading] entry, which is not what it
    receives for [{ loading: false }].  For [{ fetching: true }] the two
    calls agree. *)
Example C4_fetching_false_is_not_translated :
  exists r s',
    createRequestState (demoEnv false) HOOK_FETCHER (demoAlova plainHook)
      todoMethod demoConfig VUndef VUndef None None (demoStore ∅)
    = Ok (r, s')
    /\ patches (hostSt (world (snd
         (update r {["fetching"%string := VBool false]} s'))))
       = [ {["fetching"%string := VBool false]} ]
    /\ patches (hostSt (world (snd
         (update r {["loading"%string := VBool false]} s'))))
       = [ {["loading"%string := VBool false]} ]
    /\ update r {["fetching"%string := VBool false]} s'
       <> update r {["loading"%string := VBool false]} s'
    /\ update r {["fetching"%string := VBool true]} s'
       = update r {["loading"%string := VBool true]} s'.
Proof.
  eexists _, _. split; [reflexivity|].
  split; [reflexivity|]. split; [reflexivity|]. split.
  - intros Heq.
    apply (f_equal (fun x => fst x !! "loading"%string)) in Heq.
    vm_compute in Heq. discriminate.
  - by apply update_fetching_truthy.
Qed.

Lemma C5_witness :
  statesHook (demoAlova plainHook) = Some plainHook
  /\ isSSR (demoEnv false) = false
  /\ exists r s',
       createRequestState (demoEnv false) HOOK_WATCHER (demoAlova plainHook)
         todoMethod demoConfig VUndef trueValue (Some [])
         (Some (DelayArray [200; 300]%Z)) (demoStore ∅) = Ok (r, s')
       /\ (handler ∘ fst)
            <$> registered
                  (createRequestState (demoEnv false) HOOK_WATCHER
                     (demoAlova plainHook) todoMethod demoConfig VUndef
                     trueValue (Some []) (Some (DelayArray [200; 300]%Z))
                     (demoStore ∅))
                  (demoStore ∅)
          = [Debounced (WrapEffectRequest (rsHookInstance r) todoMethod)
               (debounceDelayFn (DelayArray [200; 300]%Z))].
Proof.
  split; [reflexivity|]. split; [reflexivity|].
  destruct (C5_handler_plain_or_debounced (tys := demoTypes) (demoEnv false)
              HOOK_WATCHER (demoAlova plainHook) todoMethod demoConfig VUndef
              trueValue (Some []) (Some (DelayArray [200; 300]%Z))
              (demoStore ∅) plainHook eq_refl eq_refl)
    as (r & s' & Hr & Hh & _).
  exists r, s'. split; [exact Hr | exact Hh].
Defined.

Lemma C6_witness :
  [200; 300]%Z !! 1 = Some 300%Z
  /\ debounceDelayFn (DelayArray [200; 300]%Z) (VNum 1) = VNum 300
  /\ debounceDelayFn (DelayNumber 500) (VNum 1) = VNum 500
  /\ debounceDelayFn (DelayNumber 0) (VNum 1) = VNum 0.
Proof.
  split; [reflexivity|]. split; [|split].
  - exact (proj1 (proj2 (proj2
             (C6_delay_of_changed_index (Some (DelayArray [200; 300]%Z)))))
             [200; 300]%Z 1 300%Z eq_refl eq_refl).
  - exact (proj1 (proj2 (proj2 (proj2 (proj2
             (C6_delay_of_changed_index (Some (DelayNumber 500)))))))
             500%Z 1%Z eq_refl).
  - exact (proj2 (proj2 (proj2 (proj2 (proj2
             (C6_delay_of_changed_index None)))))
             eq_refl 1%Z).
Defined.

Lemma C7_witness :
  (exists r s',
     createRequestState (demoEnv false) HOOK_REQUEST (demoAlova plainHook)
       todoMethod demoConfig VUndef VUndef None None (demoStore ∅)
     = Ok (r, s')
     /\ unhandledRejections
          (promises (wrapEffectRequest (demoEnv false) (rsHookInstance r)
                       todoMethod s'))
        = []
     /\ promises (snd (send (demoEnv false) r None None VUndef s'))
          !! fst (send (demoEnv false) r None None VUndef s')
        = Some (mkCell (Rejected (VStr "boom"%string)) false)).
Proof.
  eexists _, _. split; [reflexivity|].
  match goal with
  | |- context [send _ ?r _ _ _ ?s] =>
      destruct (C7_wrapper_catches_send_rejects (tys := demoTypes)
                  (demoEnv false) (rsHookInstance r) todoMethod r None None
                  VUndef s) as (Hcaught & _ & Hsend)
  end.
  split; [exact Hcaught|].
  exact (proj1 (Hsend (VStr "boom"%string) _ eq_refl)).
Defined.

Lemma C8_witness :
  isSSR (demoEnv true) = true
  /\ registered
       (createRequestState (demoEnv true) HOOK_REQUEST (demoAlova plainHook)
          todoMethod demoConfig VUndef trueValue None None (demoStore ∅))
       (demoStore ∅)
     = [].
Proof.
  split; [reflexivity|].
  exact (proj1 (C8_no_effect_when_ssr (tys := demoTypes) (demoEnv true)
                  HOOK_REQUEST (demoAlova plainHook) todoMethod demoConfig
                  VUndef trueValue None None (demoStore ∅) eq_refl)).
Defined.


(** * Further properties of createRequestState *)

Section Further.

Context {tys : HostTypes}.

(** ** The parts of an entry *)

Lemma obtainHook_setCache (hk : StatesHook) (hookType : HookType)
    (cfg : UseHookConfig) (k : CacheState) (w : World) :
  obtainHook hk hookType cfg (setCache k w)
  = (fst (obtainHook hk hookType cfg w),
     setCache k (snd (obtainHook hk hookType cfg w))).
Proof.
  unfold obtainHook. simpl. destruct (ref hk) as [hostRef|]; [|done].
  by destruct (hostRef _ _).
Qed.

Lemma obtainHook_cache (hk : StatesHook) (hookType : HookType)
    (cfg : UseHookConfig) (w : World) :
  cacheSt (snd (obtainHook hk hookType cfg w)) = cacheSt w.
Proof.
  unfold obtainHook. destruct (ref hk) as [hostRef|]; [|done].
  simpl. by destruct (hostRef _ _).
Qed.

(** Entering, written out: the initial loading, then the hook instance,
    then the created states, then the assignments to the hook instance. *)
Lemma enterContext_parts (env : Env) (hk : StatesHook) (hookType : HookType)
    (a : Alova) (mh : MethodHandler) (cfg : UseHookConfig) (d imm : JsVal)
    (w : World) :
  let il := initialLoading env a mh cfg imm (cacheSt w) in
  let oh := obtainHook hk hookType cfg w in
  let cc := createCore hk d (fst il) (fst oh) (hostSt (snd oh)) in
  let front := mergeFrontStates (default ∅ (managedStates cfg)) (fst cc) in
  enterContext env hk hookType a mh cfg d imm w
  = (mkEntered (fst oh) (fst cc) front,
     mkWorld
       (alter (resetHook front cfg) (fst oh)
          (heap w ++ [createHook hookType cfg]))
       (snd cc) (snd il)).
Proof.
  simpl. unfold enterContext.
  destruct (initialLoading _ _ _ _ _ _) as [b k]. simpl.
  rewrite obtainHook_setCache.
  pose proof (obtainHook_heap hk hookType cfg w) as Hheap.
  pose proof (obtainHook_cache hk hookType cfg w) as Hcache.
  destruct (obtainHook hk hookType cfg w) as [l w0]. simpl in *.
  destruct (createCore _ _ _ _ _) as [core h1]. simpl.
  unfold assign, setHeap, setHost, setCache. simpl.
  by rewrite alter_reset, Hheap.
Qed.

(** The host state and the cache after the whole call. *)
Lemma createRequestState_world (env : Env) (hookType : HookType) (a : Alova)
    (mh : MethodHandler) (cfg : UseHookConfig) (d imm : JsVal)
    (ws : option (list Watched)) (dd : option DebounceDelay) (s : Store)
    (hk : StatesHook) (r : RequestState) (s' : Store) (en : Entered)
    (w1 : World) :
  statesHook a = Some hk ->
  createRequestState env hookType a mh cfg d imm ws dd s = Ok (r, s') ->
  enterContext env hk hookType a mh cfg d (paramDefault imm falseValue)
    (world s) = (en, w1) ->
  cacheSt (world s') = cacheSt w1
  /\ hostSt (world s')
     = snd (exportStates hk (enCore en) (enHook en)
              (if isSSR env then hostSt w1
               else effectRequest hk
                      (effectParams mh en (paramDefault imm falseValue) ws
                         (default (DelayNumber 0) dd))
                      (enHook en) (hostSt w1))).
Proof.
  intros Hhk Hcall Hen. unfold createRequestState in Hcall.
  rewrite Hhk, Hen in Hcall.
  destruct (isSSR env).
  - destruct (exportStates _ _ _ _) as [[[[[l dt] e] dl] ul] h] eqn:Hex.
    injection Hcall as <- <-. simpl in *. done.
  - destruct (exportStates _ _ _ _) as [[[[[l dt] e] dl] ul] h] eqn:Hex.
    injection Hcall as <- <-. simpl in *. done.
Qed.

(** ** Failure of the call *)

(** X1: without a states hook on the alova instance the call throws,
    whatever its other arguments and the state it is made in. *)
Theorem X1_throws_without_statesHook (env : Env) (hookType : HookType)
    (a : Alova) (mh : MethodHandler) (cfg : UseHookConfig) (d imm : JsVal)
    (ws : option (list Watched)) (dd : option DebounceDelay) (s : Store) :
  statesHook a = None ->
  exists msg : string,
    createRequestState env hookType a mh cfg d imm ws dd s = Throw msg.
Proof.
  intros Hhk. unfold createRequestState. rewrite Hhk. eauto.
Qed.

(** ** The cache and the initial loading *)

(** X2: the response cache is consulted exactly when the request is
    immediate: then its state after the call is the one the lookup of the
    method's key leaves, otherwise it is the state before the call. *)
Theorem X2_cache_read_only_when_immediate (env : Env) (hookType : HookType)
    (a : Alova) (mh : MethodHandler) (cfg : UseHookConfig) (d imm : JsVal)
    (ws : option (list Watched)) (dd : option DebounceDelay) (s : Store)
    (hk : StatesHook) :
  statesHook a = Some hk ->
  exists r s',
    createRequestState env hookType a mh cfg d imm ws dd s = Ok (r, s')
    /\ cacheSt (world s')
       = if truthy (paramDefault imm falseValue)
         then snd (getResponseCache env (alovaId a)
                     (key env (getHandlerMethod mh)) (cacheSt (world s)))
         else cacheSt (world s).
Proof.
  intros Hhk.
  destruct (createRequestState_ok env hookType a mh cfg d imm ws dd s hk Hhk)
    as (r & s' & en & w1 & Hr & Hen & _).
  exists r, s'. split; [done|].
  destruct (createRequestState_world _ _ _ _ _ _ _ _ _ _ _ _ _ _ _ Hhk Hr Hen)
    as [-> _].
  rewrite enterContext_parts in Hen. injection Hen as _ <-. simpl.
  unfold initialLoading. destruct (truthy _); [|done].
  by destruct (getResponseCache _ _ _ _).
Qed.

Lemma createCore_loading (hk : StatesHook) (d : JsVal) (b : bool) (l : loc)
    (h : HostState) :
  coreLoading (fst (createCore hk d b l h))
  = fst (create hk (VBool b) l (snd (create hk d l h))).
Proof.
  unfold createCore.
  destruct (create hk d l h) as [x0 h0]. simpl.
  destruct (create hk (VBool b) l h0) as [x1 h1]. simpl.
  destruct (create hk undefinedValue l h1) as [x2 h2].
  destruct (create hk progress l h2) as [x3 h3].
  by destruct (create hk progress l h3) as [x4 h4].
Qed.

(** X3: the state named loading is the one the host's [create] returns,
    as the second state created on the hook instance, for the initial value
    [immediate && (force || !cachedResponse)]: true for an immediate request
    that is forced or whose cached response is missing or falsy, false for
    one that is not forced and has a truthy cached response, and false for
    every request that is not immediate. *)
Theorem X3_loading_created_with_initial_flag (env : Env)
    (hookType : HookType) (a : Alova) (mh : MethodHandler)
    (cfg : UseHookConfig) (d imm : JsVal) (ws : option (list Watched))
    (dd : option DebounceDelay) (s : Store) (hk : StatesHook) :
  statesHook a = Some hk ->
  let cached :=
    fst (getResponseCache env (alovaId a) (key env (getHandlerMethod mh))
           (cacheSt (world s))) in
  let forced := sloughConfig (coalesceCfg (force cfg) falseValue) in
  let b :=
    truthy (paramDefault imm falseValue)
    && (truthy forced || negb (truthy cached)) in
  let h0 := hostSt (snd (obtainHook hk hookType cfg (world s))) in
  exists r s',
    createRequestState env hookType a mh cfg d imm ws dd s = Ok (r, s')
    /\ rsFrontStates r !! "loading"%string
       = Some (fst (create hk (VBool b) (rsHookInstance r)
                      (snd (create hk d (rsHookInstance r) h0)))).
Proof.
  intros Hhk. simpl.
  destruct (createRequestState_ok env hookType a mh cfg d imm ws dd s hk Hhk)
    as (r & s' & en & w1 & Hr & Hen & Hl & Hf & _).
  exists r, s'. split; [done|].
  rewrite enterContext_parts in Hen. injection Hen as <- _.
  rewrite Hf, Hl. simpl.
  destruct (mergeFrontStates_core (default ∅ (managedStates cfg))
              (fst (createCore hk d
                      (fst (initialLoading env a mh cfg
                              (paramDefault imm falseValue)
                              (cacheSt (world s))))
                      (fst (obtainHook hk hookType cfg (world s)))
                      (hostSt (snd (obtainHook hk hookType cfg (world s)))))))
    as (_ & -> & _).
  by rewrite createCore_loading, initialLoading_value.
Qed.

(** ** The names of the front states *)

(** X4: the front states hold a state under exactly the names of the
    managed states and the five names data, loading, error, downloading and
    uploading; without managed states, under these five only. *)
Theorem X4_front_state_names (env : Env) (hookType : HookType) (a : Alova)
    (mh : MethodHandler) (cfg : UseHookConfig) (d imm : JsVal)
    (ws : option (list Watched)) (dd : option DebounceDelay) (s : Store)
    (hk : StatesHook) :
  statesHook a = Some hk ->
  exists r s',
    createRequestState env hookType a mh cfg d imm ws dd s = Ok (r, s')
    /\ dom (rsFrontStates r)
       = dom (default ∅ (managedStates cfg))
         ∪ list_to_set
             ["data"; "loading"; "error"; "downloading"; "uploading"]%string
    /\ (managedStates cfg = None ->
        dom (rsFrontStates r)
        = list_to_set
            ["data"; "loading"; "error"; "downloading"; "uploading"]%string).
Proof.
  intros Hhk.
  destruct (createRequestState_ok env hookType a mh cfg d imm ws dd s hk Hhk)
    as (r & s' & en & w1 & Hr & Hen & _ & Hf & _).
  destruct (enterContext_heap _ _ _ _ _ _ _ _ _ _ _ Hen) as (_ & Hfront & _).
  exists r, s'. split; [done|].
  assert (dom (rsFrontStates r)
          = dom (default ∅ (managedStates cfg))
            ∪ list_to_set
                ["data"; "loading"; "error"; "downloading"; "uploading"]%string)
    as Hdom.
  { rewrite Hf, Hfront. unfold mergeFrontStates.
    rewrite !dom_insert_L. simpl. apply set_eq. intros x.
    rewrite !elem_of_union, !elem_of_singleton, elem_of_empty. tauto. }
  split; [done|]. intros Hnone. rewrite Hdom, Hnone. simpl.
  rewrite dom_empty_L. apply set_eq. intros x.
  rewrite !elem_of_union, !elem_of_singleton, elem_of_empty. tauto.
Qed.

(** ** Registration of handlers *)

Lemma hookAt_assign (l : loc) (f : Hook -> Hook) (s : Store) :
  hookAt l (setWorld (assign l f (world s)) s) = f <$> hookAt l s.
Proof. unfold hookAt. simpl. apply list_lookup_alter_eq. Qed.

Lemma hookAt_assign_ne (l l' : loc) (f : Hook -> Hook) (s : Store) :
  l <> l' -> hookAt l' (setWorld (assign l f (world s)) s) = hookAt l' s.
Proof. intros Hne. unfold hookAt. simpl. by apply list_lookup_alter_ne. Qed.

Lemma registerAll_cons (register : Callback -> Store -> Store)
    (x : Callback) (hs : list Callback) (s : Store) :
  registerAll register (x :: hs) s = registerAll register hs (register x s).
Proof. done. Qed.

Lemma onSuccess_all (r : RequestState) (hs : list Callback) (s : Store)
    (h : Hook) :
  hookAt (rsHookInstance r) s = Some h ->
  hookAt (rsHookInstance r) (registerAll (onSuccess r) hs s)
  = Some (set_sh (sh h ++ hs) h).
Proof.
  revert s h. induction hs as [|x hs IH]; intros s h Hh.
  - simpl. rewrite app_nil_r, Hh. by destruct h.
  - rewrite registerAll_cons.
    rewrite (IH _ (set_sh (pushItem (sh h) x) h)).
    + unfold pushItem, set_sh. simpl. by rewrite <- app_assoc.
    + unfold onSuccess. by rewrite hookAt_assign, Hh.
Qed.

Lemma onError_all (r : RequestState) (hs : list Callback) (s : Store)
    (h : Hook) :
  hookAt (rsHookInstance r) s = Some h ->
  hookAt (rsHookInstance r) (registerAll (onError r) hs s)
  = Some (set_eh (eh h ++ hs) h).
Proof.
  revert s h. induction hs as [|x hs IH]; intros s h Hh.
  - simpl. rewrite app_nil_r, Hh. by destruct h.
  - rewrite registerAll_cons.
    rewrite (IH _ (set_eh (pushItem (eh h) x) h)).
    + unfold pushItem, set_eh. simpl. by rewrite <- app_assoc.
    + unfold onError. by rewrite hookAt_assign, Hh.
Qed.

Lemma onComplete_all (r : RequestState) (hs : list Callback) (s : Store)
    (h : Hook) :
  hookAt (rsHookInstance r) s = Some h ->
  hookAt (rsHookInstance r) (registerAll (onComplete r) hs s)
  = Some (set_ch (ch h ++ hs) h).
Proof.
  revert s h. induction hs as [|x hs IH]; intros s h Hh.
  - simpl. rewrite app_nil_r, Hh. by destruct h.
  - rewrite registerAll_cons.
    rewrite (IH _ (set_ch (pushItem (ch h) x) h)).
    + unfold pushItem, set_ch. simpl. by rewrite <- app_assoc.
    + unfold onComplete. by rewrite hookAt_assign, Hh.
Qed.

(** X5: handlers registered one after the other through [onSuccess],
    [onError] or [onComplete] end up behind the ones the hook instance
    already holds, in the order of the calls, and the other fields of the
    hook instance stay as they are. *)
Theorem X5_handlers_accumulate_in_order (r : RequestState)
    (hs : list Callback) (s : Store) (h : Hook) :
  hookAt (rsHookInstance r) s = Some h ->
  hookAt (rsHookInstance r) (registerAll (onSuccess r) hs s)
  = Some (mkHook (ht h) (fs h) (sh h ++ hs) (eh h) (ch h) (rf h) (sf h)
            (ar h) (c h))
  /\ hookAt (rsHookInstance r) (registerAll (onError r) hs s)
     = Some (mkHook (ht h) (fs h) (sh h) (eh h ++ hs) (ch h) (rf h) (sf h)
               (ar h) (c h))
  /\ hookAt (rsHookInstance r) (registerAll (onComplete r) hs s)
     = Some (mkHook (ht h) (fs h) (sh h) (eh h) (ch h ++ hs) (rf h) (sf h)
               (ar h) (c h)).
Proof.
  intros Hh. split; [|split].
  - by rewrite (onSuccess_all r hs s h Hh).
  - by rewrite (onError_all r hs s h Hh).
  - by rewrite (onComplete_all r hs s h Hh).
Qed.

Lemma assign_assign_comm (l : loc) (f g : Hook -> Hook) (w : World) :
  (forall h, f (g h) = g (f h)) ->
  assign l f (assign l g w) = assign l g (assign l f w).
Proof.
  intros Hfg. unfold assign, setHeap. simpl. f_equal.
  rewrite !list_alter_alter_eq. apply list_alter_ext; [|done].
  intros h _. apply Hfg.
Qed.

(** X6: registrations of different kinds do not disturb each other, in
    whatever order they are made; a registration changes nothing but the
    hook instance of the object it is called on: the other hook instances,
    the host's state, the cache, the effect registrations and the promises
    are as before. *)
Theorem X6_registrations_are_independent (r : RequestState)
    (x y : Callback) (s : Store) :
  onSuccess r x (onError r y s) = onError r y (onSuccess r x s)
  /\ onSuccess r x (onComplete r y s) = onComplete r y (onSuccess r x s)
  /\ onError r x (onComplete r y s) = onComplete r y (onError r x s)
  /\ (forall l' : loc,
        l' <> rsHookInstance r ->
        hookAt l' (onSuccess r x s) = hookAt l' s
        /\ hookAt l' (onError r x s) = hookAt l' s
        /\ hookAt l' (onComplete r x s) = hookAt l' s)
  /\ (forall register : RequestState -> Callback -> Store -> Store,
        register ∈ [onSuccess; onError; onComplete] ->
        hostSt (world (register r x s)) = hostSt (world s)
        /\ cacheSt (world (register r x s)) = cacheSt (world s)
        /\ effects (register r x s) = effects s
        /\ promises (register r x s) = promises s).
Proof.
  split; [|split; [|split; [|split]]].
  - unfold onSuccess, onError, setWorld. simpl. f_equal.
    by apply assign_assign_comm.
  - unfold onSuccess, onComplete, setWorld. simpl. f_equal.
    by apply assign_assign_comm.
  - unfold onError, onComplete, setWorld. simpl. f_equal.
    by apply assign_assign_comm.
  - intros l' Hne. unfold onSuccess, onError, onComplete.
    by rewrite !hookAt_assign_ne.
  - intros register Hreg.
    rewrite !elem_of_cons in Hreg.
    destruct Hreg as [->|[->|[->|Hnil]]]; [done..|].
    by apply elem_of_nil in Hnil.
Qed.

(** ** What an entry does to the heap *)

(** X7: a call makes exactly one new hook object, and every hook instance
    that existed before the call, other than the one the call works on, is
    left as it was. *)
Theorem X7_other_hook_instances_untouched (env : Env) (hookType : HookType)
    (a : Alova) (mh : MethodHandler) (cfg : UseHookConfig) (d imm : JsVal)
    (ws : option (list Watched)) (dd : option DebounceDelay) (s : Store)
    (hk : StatesHook) :
  statesHook a = Some hk ->
  exists r s',
    createRequestState env hookType a mh cfg d imm ws dd s = Ok (r, s')
    /\ length (heap (world s')) = S (length (heap (world s)))
    /\ hookAt (length (heap (world s))) s'
       = (if decide (rsHookInstance r = length (heap (world s)))
          then Some (resetHook (rsFrontStates r) cfg
                       (createHook hookType cfg))
          else Some (createHook hookType cfg))
    /\ forall l' : loc,
         l' <> rsHookInstance r ->
         l' < length (heap (world s)) ->
         hookAt l' s' = hookAt l' s.
Proof.
  intros Hhk.
  destruct (createRequestState_ok env hookType a mh cfg d imm ws dd s hk Hhk)
    as (r & s' & en & w1 & Hr & Hen & Hl & Hf & _ & _ & _ & Hhp & _).
  destruct (enterContext_heap _ _ _ _ _ _ _ _ _ _ _ Hen) as (Hw1 & _ & _).
  exists r, s'. split; [done|]. unfold hookAt. rewrite Hhp, Hw1, Hl, Hf.
  split; [|split].
  - rewrite length_alter, length_app. simpl. lia.
  - case_decide as Hdec.
    + rewrite Hdec, list_lookup_alter_eq.
      by rewrite lookup_app_r, Nat.sub_diag by lia.
    + rewrite list_lookup_alter_ne by done.
      by rewrite lookup_app_r, Nat.sub_diag by lia.
  - intros l' Hne Hlt.
    rewrite list_lookup_alter_ne by done. by rewrite lookup_app_l.
Qed.

(** ** The patch of update, entry by entry *)

(** X8: what [update] hands to the host, entry by entry.  With a truthy
    [fetching] entry the patch has no [fetching] entry any more, its
    [loading] entry is the value [fetching] had (an entry [loading] given
    beside it is overwritten), and all other entries are as given; without
    one the patch is handed over as given.  The call changes the host's
    state only. *)
Theorem X8_update_patch_entries (r : RequestState)
    (newStates : gmap string JsVal) (k : string) (s : Store) :
  fst (update r newStates s) !! k
  = (if truthy (default VUndef (newStates !! "fetching"%string))
     then if decide (k = "fetching"%string) then None
          else if decide (k = "loading"%string)
               then newStates !! "fetching"%string
               else newStates !! k
     else newStates !! k)
  /\ hostSt (world (snd (update r newStates s)))
     = stateUpdate (rsStatesHook r) (fst (update r newStates s))
         (rsFrontStates r) (rsHookInstance r) (hostSt (world s))
  /\ heap (world (snd (update r newStates s))) = heap (world s)
  /\ cacheSt (world (snd (update r newStates s))) = cacheSt (world s)
  /\ effects (snd (update r newStates s)) = effects s
  /\ promises (snd (update r newStates s)) = promises s.
Proof.
  split; [|done]. unfold update, translatePatch. simpl.
  destruct (newStates !! "fetching"%string) as [v|] eqn:Hf; simpl; [|done].
  destruct (truthy v) eqn:Hv; [|done].
  case_decide as Hk1; [subst k; by rewrite lookup_delete_eq|].
  rewrite lookup_delete_ne by done.
  case_decide as Hk2; [subst k; by rewrite lookup_insert_eq|].
  by rewrite lookup_insert_ne.
Qed.

(** X9: the translation is made once: handing [update] the patch object it
    has already translated hands the host the same patch again. *)
Theorem X9_update_translation_idempotent (r : RequestState)
    (newStates : gmap string JsVal) (s s1 : Store) :
  fst (update r (fst (update r newStates s)) s1) = fst (update r newStates s).
Proof.
  unfold update. simpl. unfold translatePatch at 1.
  destruct (truthy (default VUndef
                      (translatePatch newStates !! "fetching"%string)))
    eqn:Hv; [|done].
  exfalso. unfold translatePatch in Hv.
  destruct (truthy (default VUndef (newStates !! "fetching"%string)))
    eqn:Hv0.
  - by rewrite lookup_delete_eq in Hv.
  - by rewrite Hv0 in Hv.
Qed.

(** ** The promises of the two request paths *)

(** X10: the effect wrapper adds two promises behind the ones of the
    table, which it leaves as they are: the promise of the attempt, settled
    as the attempt settles and with a rejection handler attached, and the
    promise of the catch, fulfilled with the value of the attempt or, for a
    rejected attempt, with [undefined].  The registrations are unchanged. *)
Theorem X10_wrapper_promises (env : Env) (l : loc) (mh : MethodHandler)
    (s : Store) :
  let o := fst (useHookToSendRequest env l mh None VUndef (world s)) in
  promises (wrapEffectRequest env l mh s)
  = promises s
    ++ [mkCell o true;
        mkCell (match o with
                | Fulfilled v => Fulfilled v
                | Rejected _ => Fulfilled VUndef
                end) false]
  /\ effects (wrapEffectRequest env l mh s) = effects s.
Proof.
  simpl. unfold wrapEffectRequest, handleRequest. simpl.
  destruct (useHookToSendRequest _ _ _ _ _ _) as [o w]. simpl.
  unfold promiseCatch.
  rewrite lookup_app_r, Nat.sub_diag by lia. simpl.
  change (list_alter markHandled (length (promises s))
            (promises s ++ [mkCell o false]))
    with (alter markHandled (length (promises s))
            (promises s ++ [mkCell o false])).
  rewrite alter_last, <- app_assoc. by destruct o.
Qed.


(** ** The delay function outside the array *)

(** X12: with an array of delays, the delay function returns [undefined],
    not 0, exactly for the changed indices that are not indices of the
    array: the negative ones and those from its length on. *)
Theorem X12_delay_undefined_outside_array (ds : list Z) (i : Z) :
  debounceDelayFn (DelayArray ds) (VNum i) = VUndef
  <-> (i < 0 \/ Z.of_nat (length ds) <= i)%Z.
Proof.
  change (debounceDelayFn (DelayArray ds) (VNum i)) with (jsIndex ds i).
  unfold jsIndex. destruct (Z.ltb_spec i 0) as [Hneg|Hpos].
  - split; [auto|done].
  - destruct (ds !! Z.to_nat i) as [ms|] eqn:Hi.
    + apply lookup_lt_Some in Hi. split; [done|]. lia.
    + apply lookup_ge_None in Hi. split; [|done]. lia.
Qed.

(** ** Server rendering and the entry *)

Lemma enterContext_withSSR (ssr : bool) (env : Env) (hk : StatesHook)
    (hookType : HookType) (a : Alova) (mh : MethodHandler)
    (cfg : UseHookConfig) (d imm : JsVal) (w : World) :
  enterContext (withSSR ssr env) hk hookType a mh cfg d imm w
  = enterContext env hk hookType a mh cfg d imm w.
Proof. reflexivity. Qed.

(** X13: whether the code runs in server rendering or not, the call works
    on the same hook instance, with the same front states (the loading state
    created with the same initial value among them), and leaves the same
    heap and the same promises: [isSSR] decides on the effect registration
    only. *)
Theorem X13_entry_same_with_and_without_ssr (ssr : bool) (env : Env)
    (hookType : HookType) (a : Alova) (mh : MethodHandler)
    (cfg : UseHookConfig) (d imm : JsVal) (ws : option (list Watched))
    (dd : option DebounceDelay) (s : Store) (hk : StatesHook) :
  statesHook a = Some hk ->
  exists r1 s1 r2 s2,
    createRequestState (withSSR ssr env) hookType a mh cfg d imm ws dd s
    = Ok (r1, s1)
    /\ createRequestState env hookType a mh cfg d imm ws dd s = Ok (r2, s2)
    /\ rsHookInstance r1 = rsHookInstance r2
    /\ rsFrontStates r1 = rsFrontStates r2
    /\ heap (world s1) = heap (world s2)
    /\ cacheSt (world s1) = cacheSt (world s2)
    /\ promises s1 = promises s2.
Proof.
  intros Hhk.
  destruct (createRequestState_ok (withSSR ssr env) hookType a mh cfg d imm
              ws dd s hk Hhk)
    as (r1 & s1 & en1 & w1 & Hr1 & Hen1 & Hl1 & Hf1 & _ & _ & _ & Hh1 & Hp1
        & _).
  destruct (createRequestState_ok env hookType a mh cfg d imm ws dd s hk Hhk)
    as (r2 & s2 & en2 & w2 & Hr2 & Hen2 & Hl2 & Hf2 & _ & _ & _ & Hh2 & Hp2
        & _).
  destruct (createRequestState_world _ _ _ _ _ _ _ _ _ _ _ _ _ _ _
              Hhk Hr1 Hen1) as [Hc1 _].
  destruct (createRequestState_world _ _ _ _ _ _ _ _ _ _ _ _ _ _ _
              Hhk Hr2 Hen2) as [Hc2 _].
  rewrite enterContext_withSSR, Hen2 in Hen1. injection Hen1 as <- <-.
  exists r1, s1, r2, s2. rewrite Hl1, Hl2, Hf1, Hf2, Hh1, Hh2, Hc1, Hc2.
  rewrite Hp1, Hp2. done.
Qed.

(** ** The registration as a whole *)

(** X14: outside server rendering the call adds one registration behind
    the earlier ones, made for the hook instance that the returned
    operations work on: its [removeStates] and [saveStates] run the
    functions of that same instance, its [watchingStates] are the ones
    passed to the call, and the host's [effectRequest] is called on the
    host state that the creation of the five states has left. *)
Theorem X14_registration_closes_over_hook_instance (env : Env)
    (hookType : HookType) (a : Alova) (mh : MethodHandler)
    (cfg : UseHookConfig) (d imm : JsVal) (ws : option (list Watched))
    (dd : option DebounceDelay) (s : Store) (hk : StatesHook) :
  statesHook a = Some hk ->
  isSSR env = false ->
  exists r s' p en w1,
    createRequestState env hookType a mh cfg d imm ws dd s = Ok (r, s')
    /\ effects s' = effects s ++ [(p, rsHookInstance r)]
    /\ removeStates p = RunRemoveFns (rsHookInstance r)
    /\ saveStates p = RunSaveFns (rsHookInstance r)
    /\ watchingStates p = ws
    /\ enterContext env hk hookType a mh cfg d (paramDefault imm falseValue)
         (world s) = (en, w1)
    /\ hostSt (world s')
       = snd (exportStates hk (enCore en) (rsHookInstance r)
                (effectRequest hk p (rsHookInstance r) (hostSt w1))).
Proof.
  intros Hhk Hssr.
  destruct (createRequestState_ok env hookType a mh cfg d imm ws dd s hk Hhk)
    as (r & s' & en & w1 & Hr & Hen & Hl & _ & _ & _ & _ & _ & _ & He & _).
  destruct (createRequestState_world _ _ _ _ _ _ _ _ _ _ _ _ _ _ _
              Hhk Hr Hen) as [_ Hhost].
  rewrite Hssr in He, Hhost.
  eexists r, s', _, en, w1. rewrite Hl.
  split; [done|]. split; [exact He|]. by repeat split.
Qed.

(** ** Abort and the kept hook instance *)

(** X15: when the call works on a hook instance that existed before it
    (one the host's [ref] has kept), the instance keeps its abort function,
    its remove-states and save-states functions and its hook type, and
    [abort()] on the returned object calls the abort function the instance
    held before the call. *)
Theorem X15_abort_function_survives_entry (env : Env) (hookType : HookType)
    (a : Alova) (mh : MethodHandler) (cfg : UseHookConfig) (d imm : JsVal)
    (ws : option (list Watched)) (dd : option DebounceDelay) (s : Store)
    (hk : StatesHook) (r : RequestState) (s' : Store) (h0 : Hook) :
  statesHook a = Some hk ->
  createRequestState env hookType a mh cfg d imm ws dd s = Ok (r, s') ->
  hookAt (rsHookInstance r) s = Some h0 ->
  hookAt (rsHookInstance r) s'
  = Some (mkHook (ht h0) (rsFrontStates r) [] [] [] (rf h0) (sf h0) (ar h0)
            cfg)
  /\ abort env r s' = setWorld (callAbort env (ar h0) (world s')) s'.
Proof.
  intros Hhk Hcall Hh0.
  destruct (createRequestState_ok env hookType a mh cfg d imm ws dd s hk Hhk)
    as (r2 & s2 & en & w1 & Hr & Hen & Hl & Hf & _ & _ & _ & Hhp & _).
  rewrite Hcall in Hr. injection Hr as <- <-.
  destruct (enterContext_heap _ _ _ _ _ _ _ _ _ _ _ Hen) as (Hw1 & _ & _).
  assert (hookAt (rsHookInstance r) s'
          = Some (resetHook (rsFrontStates r) cfg h0)) as Hhook.
  { unfold hookAt in *. rewrite Hhp, Hw1, Hl, Hf, list_lookup_alter_eq.
    rewrite Hl in Hh0. by rewrite (lookup_app_l_Some _ _ _ _ Hh0). }
  split; [done|]. unfold abort. by rewrite Hhook.
Qed.

(** X16: with a states hook that has no [ref], every call works on the
    hook object it has made itself, so two calls never share a hook
    instance: the instance of the call is new to the heap, and after the
    call it is that object with the front states and the config of the call
    and empty success, error and complete handler lists. *)
Theorem X16_own_hook_instance_without_ref (env : Env) (hookType : HookType)
    (a : Alova) (mh : MethodHandler) (cfg : UseHookConfig) (d imm : JsVal)
    (ws : option (list Watched)) (dd : option DebounceDelay) (s : Store)
    (hk : StatesHook) (r : RequestState) (s' : Store) :
  statesHook a = Some hk ->
  ref hk = None ->
  createRequestState env hookType a mh cfg d imm ws dd s = Ok (r, s') ->
  rsHookInstance r = length (heap (world s))
  /\ hookAt (rsHookInstance r) s = None
  /\ hookAt (rsHookInstance r) s'
     = Some (resetHook (rsFrontStates r) cfg (createHook hookType cfg))
  /\ forall (hookType2 : HookType) (mh2 : MethodHandler)
       (cfg2 : UseHookConfig) (d2 imm2 : JsVal)
       (ws2 : option (list Watched)) (dd2 : option DebounceDelay)
       (r2 : RequestState) (s2 : Store),
       createRequestState env hookType2 a mh2 cfg2 d2 imm2 ws2 dd2 s'
       = Ok (r2, s2) ->
       rsHookInstance r2 <> rsHookInstance r
       /\ hookAt (rsHookInstance r) s2 = hookAt (rsHookInstance r) s'.
Proof.
  intros Hhk Href Hcall.
  assert (forall hookType3 mh3 cfg3 d3 imm3 ws3 dd3 s3 r3 s4,
            createRequestState env hookType3 a mh3 cfg3 d3 imm3 ws3 dd3 s3
            = Ok (r3, s4) ->
            rsHookInstance r3 = length (heap (world s3))
            /\ length (heap (world s4)) = S (length (heap (world s3)))
            /\ (forall l', l' < length (heap (world s3)) ->
                hookAt l' s4 = hookAt l' s3)
            /\ hookAt (rsHookInstance r3) s4
               = Some (resetHook (rsFrontStates r3) cfg3
                         (createHook hookType3 cfg3))) as Hown.
  { intros hookType3 mh3 cfg3 d3 imm3 ws3 dd3 s3 r3 s4 Hc.
    destruct (createRequestState_ok env hookType3 a mh3 cfg3 d3 imm3 ws3 dd3
                s3 hk Hhk)
      as (r5 & s5 & en & w1 & Hr & Hen & Hl & Hf & _ & _ & _ & Hhp & _).
    rewrite Hc in Hr. injection Hr as <- <-.
    destruct (enterContext_heap _ _ _ _ _ _ _ _ _ _ _ Hen) as (Hw1 & _ & _).
    pose proof (enterContext_hook_default _ _ _ _ _ _ _ _ _ _ _ Href Hen)
      as Hloc.
    unfold hookAt. rewrite Hhp, Hw1, Hl, Hf, Hloc.
    split; [done|]. split; [|split].
    - rewrite length_alter, length_app. simpl. lia.
    - intros l' Hlt. rewrite list_lookup_alter_ne by lia.
      by rewrite lookup_app_l.
    - rewrite list_lookup_alter_eq.
      by rewrite lookup_app_r, Nat.sub_diag by lia. }
  destruct (Hown _ _ _ _ _ _ _ _ _ _ Hcall) as (Hloc & Hlen & _ & Hhook).
  split; [done|]. split; [|split; [done|]].
  - unfold hookAt. rewrite Hloc. by apply lookup_ge_None.
  - intros hookType2 mh2 cfg2 d2 imm2 ws2 dd2 r2 s2 Hcall2.
    destruct (Hown _ _ _ _ _ _ _ _ _ _ Hcall2) as (Hloc2 & _ & Hframe & _).
    split; [lia|]. apply Hframe. lia.
Qed.

(** ** The initial loading flag *)


End Further.

(** * The further properties on the concrete host *)

Lemma X2_witness :
  statesHook (demoAlova plainHook) = Some plainHook
  /\ exists r s',
       createRequestState (demoEnv false) HOOK_REQUEST (demoAlova plainHook)
         countMethod demoConfig VUndef VUndef None None
         (demoStore {["/count"%string := VNum 0]}) = Ok (r, s')
       /\ cacheSt (world s') = {["/count"%string := VNum 0]}.
Proof.
  split; [reflexivity|].
  destruct (X2_cache_read_only_when_immediate (tys := demoTypes)
              (demoEnv false) HOOK_REQUEST (demoAlova plainHook) countMethod
              demoConfig VUndef VUndef None None
              (demoStore {["/count"%string := VNum 0]}) plainHook eq_refl)
    as (r & s' & Hr & Hc).
  exists r, s'. split; [exact Hr | exact Hc].
Defined.

Lemma X3_witness :
  statesHook (demoAlova plainHook) = Some plainHook
  /\ exists r s',
       createRequestState (demoEnv false) HOOK_REQUEST (demoAlova plainHook)
         countMethod demoConfig VUndef trueValue None None
         (demoStore {["/count"%string := VStr "seven"]}) = Ok (r, s')
       /\ rsFrontStates r !! "loading"%string
          = Some (fst (demoCreate (VBool false) (rsHookInstance r)
                         (snd (demoCreate VUndef (rsHookInstance r)
                                 emptyHost)))).
Proof.
  split; [reflexivity|].
  destruct (X3_loading_created_with_initial_flag (tys := demoTypes)
              (demoEnv false) HOOK_REQUEST (demoAlova plainHook) countMethod
              demoConfig VUndef trueValue None None
              (demoStore {["/count"%string := VStr "seven"]}) plainHook
              eq_refl)
    as (r & s' & Hr & Hload).
  exists r, s'. split; [exact Hr | exact Hload].
Defined.

Lemma X4_witness :
  statesHook (demoAlova plainHook) = Some plainHook
  /\ exists r s',
       createRequestState (demoEnv false) HOOK_REQUEST (demoAlova plainHook)
         todoMethod managedConfig VUndef VUndef None None (demoStore ∅)
       = Ok (r, s')
       /\ dom (rsFrontStates r)
          = dom (default ∅ (managedStates managedConfig))
            ∪ list_to_set
                ["data"; "loading"; "error"; "downloading"; "uploading"]%string.
Proof.
  split; [reflexivity|].
  destruct (X4_front_state_names (tys := demoTypes) (demoEnv false)
              HOOK_REQUEST (demoAlova plainHook) todoMethod managedConfig
              VUndef VUndef None None (demoStore ∅) plainHook eq_refl)
    as (r & s' & Hr & Hdom & _).
  exists r, s'. split; [exact Hr | exact Hdom].
Defined.

Lemma X5_witness :
  hookAt (rsHookInstance usedState) usedStore = Some usedHook
  /\ hookAt (rsHookInstance usedState)
       (registerAll (onSuccess usedState) [5; 6] usedStore)
     = Some (mkHook HOOK_REQUEST ∅ [1; 5; 6] [2] [3] [7] [8] AbortNoop
               demoConfig).
Proof.
  split; [reflexivity|].
  exact (proj1 (X5_handlers_accumulate_in_order (tys := demoTypes) usedState
                  [5; 6] usedStore usedHook eq_refl)).
Defined.

Lemma X6_witness :
  1 <> rsHookInstance usedState
  /\ hookAt 1 (onSuccess usedState 5 usedStore) = hookAt 1 usedStore
  /\ onSuccess usedState 5 (onError usedState 6 usedStore)
     = onError usedState 6 (onSuccess usedState 5 usedStore).
Proof.
  assert (1 <> rsHookInstance usedState) as Hne by discriminate.
  split; [exact Hne|].
  destruct (X6_registrations_are_independent (tys := demoTypes) usedState
              5 6 usedStore) as (Hcomm & _ & _ & Hframe & _).
  split; [exact (proj1 (Hframe 1 Hne)) | exact Hcomm].
Defined.

Lemma X7_witness :
  statesHook (demoAlova keepingHook) = Some keepingHook
  /\ exists r s',
       createRequestState (demoEnv false) HOOK_WATCHER (demoAlova keepingHook)
         todoMethod demoConfig VUndef VUndef None None usedStore = Ok (r, s')
       /\ length (heap (world s')) = 2.
Proof.
  split; [reflexivity|].
  destruct (X7_other_hook_instances_untouched (tys := demoTypes)
              (demoEnv false) HOOK_WATCHER (demoAlova keepingHook) todoMethod
              demoConfig VUndef VUndef None None usedStore keepingHook
              eq_refl)
    as (r & s' & Hr & Hlen & _).
  exists r, s'. split; [exact Hr | exact Hlen].
Defined.

Lemma X13_witness :
  statesHook (demoAlova plainHook) = Some plainHook
  /\ exists r1 s1 r2 s2,
       createRequestState (withSSR true (demoEnv false)) HOOK_REQUEST
         (demoAlova plainHook) todoMethod demoConfig VUndef trueValue None
         None (demoStore ∅) = Ok (r1, s1)
       /\ createRequestState (demoEnv false) HOOK_REQUEST
            (demoAlova plainHook) todoMethod demoConfig VUndef trueValue None
            None (demoStore ∅) = Ok (r2, s2)
       /\ rsFrontStates r1 = rsFrontStates r2
       /\ heap (world s1) = heap (world s2).
Proof.
  split; [reflexivity|].
  destruct (X13_entry_same_with_and_without_ssr (tys := demoTypes) true
              (demoEnv false) HOOK_REQUEST (demoAlova plainHook) todoMethod
              demoConfig VUndef trueValue None None (demoStore ∅) plainHook
              eq_refl)
    as (r1 & s1 & r2 & s2 & Hr1 & Hr2 & _ & Hf & Hh & _).
  exists r1, s1, r2, s2. repeat split; assumption.
Defined.

Lemma X14_witness :
  statesHook (demoAlova plainHook) = Some plainHook
  /\ isSSR (demoEnv false) = false
  /\ exists r s' p,
       createRequestState (demoEnv false) HOOK_WATCHER (demoAlova plainHook)
         todoMethod demoConfig VUndef trueValue (Some [4; 9]) None
         (demoStore ∅) = Ok (r, s')
       /\ effects s' = [(p, rsHookInstance r)]
       /\ removeStates p = RunRemoveFns (rsHookInstance r)
       /\ watchingStates p = Some [4; 9].
Proof.
  split; [reflexivity|]. split; [reflexivity|].
  destruct (X14_registration_closes_over_hook_instance (tys := demoTypes)
              (demoEnv false) HOOK_WATCHER (demoAlova plainHook) todoMethod
              demoConfig VUndef trueValue (Some [4; 9]) None (demoStore ∅)
              plainHook eq_refl eq_refl)
    as (r & s' & p & en & w1 & Hr & He & Hrm & _ & Hws & _).
  exists r, s', p. repeat split; assumption.
Defined.

Lemma X15_witness :
  statesHook (demoAlova keepingHook) = Some keepingHook
  /\ exists r s',
       createRequestState (demoEnv false) HOOK_REQUEST (demoAlova keepingHook)
         todoMethod demoConfig VUndef VUndef None None usedStore = Ok (r, s')
       /\ hookAt (rsHookInstance r) usedStore = Some usedHook
       /\ (rf <$> hookAt (rsHookInstance r) s') = Some [7]
       /\ abort (demoEnv false) r s' = s'.
Proof.
  split; [reflexivity|].
  eexists _, _. split; [reflexivity|]. split; [reflexivity|].
  match goal with
  | |- _ /\ abort _ ?r ?s = _ =>
      destruct (X15_abort_function_survives_entry (tys := demoTypes)
                  (demoEnv false) HOOK_REQUEST (demoAlova keepingHook)
                  todoMethod demoConfig VUndef VUndef None None usedStore
                  keepingHook r s usedHook eq_refl eq_refl eq_refl)
        as [Hhook Habort]
  end.
  split; [|exact Habort]. rewrite Hhook. reflexivity.
Defined.

Lemma X16_witness :
  statesHook (demoAlova plainHook) = Some plainHook
  /\ ref plainHook = None
  /\ exists r s',
       createRequestState (demoEnv false) HOOK_REQUEST (demoAlova plainHook)
         todoMethod demoConfig VUndef VUndef None None (demoStore ∅)
       = Ok (r, s')
       /\ rsHookInstance r = 0
       /\ exists r2 s2,
            createRequestState (demoEnv false) HOOK_REQUEST
              (demoAlova plainHook) countMethod demoConfig VUndef VUndef None
              None s' = Ok (r2, s2)
            /\ rsHookInstance r2 <> rsHookInstance r.
Proof.
  split; [reflexivity|]. split; [reflexivity|].
  destruct (createRequestState_ok (tys := demoTypes) (demoEnv false)
              HOOK_REQUEST (demoAlova plainHook) todoMethod demoConfig VUndef
              VUndef None None (demoStore ∅) plainHook eq_refl)
    as (r & s' & _ & _ & Hr & _).
  destruct (X16_own_hook_instance_without_ref (tys := demoTypes)
              (demoEnv false) HOOK_REQUEST (demoAlova plainHook) todoMethod
              demoConfig VUndef VUndef None None (demoStore ∅) plainHook r s'
              eq_refl eq_refl Hr)
    as (Hloc & _ & _ & Hnext).
  exists r, s'. split; [exact Hr|]. split; [exact Hloc|].
  destruct (createRequestState_ok (tys := demoTypes) (demoEnv false)
              HOOK_REQUEST (demoAlova plainHook) countMethod demoConfig VUndef
              VUndef None None s' plainHook eq_refl)
    as (r2 & s2 & _ & _ & Hr2 & _).
  exists r2, s2. split; [exact Hr2|].
  exact (proj1 (Hnext HOOK_REQUEST countMethod demoConfig VUndef VUndef None
                  None r2 s2 Hr2)).
Defined.


Lemma X1_witness :
  statesHook bareAlova = None
  /\ exists msg : string,
       createRequestState (demoEnv false) HOOK_REQUEST bareAlova todoMethod
         demoConfig VUndef trueValue None None (demoStore ∅) = Throw msg.
Proof.
  split; [reflexivity|].
  exact (X1_throws_without_statesHook (tys := demoTypes) (demoEnv false)
           HOOK_REQUEST bareAlova todoMethod demoConfig VUndef trueValue None
           None (demoStore ∅) eq_refl).
Defined.
